(** * The render scheduler of [acgraph.vector.Stage]

    A shallow embedding of the scheduling core of [src/vector/Stage.js]:
    the suspend counter, the re-entrancy flag, the two quota allocators and
    the synchronous and asynchronous flush.  JavaScript numbers that hold
    counters are integers of [Z]; [null] is [None]; the function stored in
    the [acquireDomChanges] slot is the name of the allocator it holds. *)

From Stdlib Require Import ZArith List Bool Lia.
From Stdlib Require String.
Import ListNotations.
Local Open Scope Z_scope.

(** ** Enumerations of the source *)

(** [acgraph.vector.Stage.DomChangeType]. *)
Inductive DomChangeType : Type :=
| ELEMENT_CREATE
| ELEMENT_ADD
| ELEMENT_REMOVE
| APPLY_FILL
| APPLY_STROKE.

(** The numeric value of each member of the enum. *)
Definition DomChangeType_code (t : DomChangeType) : Z :=
  match t with
  | ELEMENT_CREATE => 1
  | ELEMENT_ADD => 2
  | ELEMENT_REMOVE => 3
  | APPLY_FILL => 4
  | APPLY_STROKE => 5
  end.

(** [acgraph.vector.Stage.EventType]. *)
Inductive EventType : Type :=
| RENDER_START
| RENDER_FINISH
| STAGE_RESIZE
| STAGE_RENDERED.

(** The members of [acgraph.error.Code] that the rendering methods throw
    (through [acgraph.error.getErrorMessage]). *)
Inductive ErrorCode : Type :=
| CONTAINER_SHOULD_BE_DEFINED
| DIRTY_AFTER_SYNC_RENDER.

(** How a method ends: it returns or it throws. *)
Inductive Result (A : Type) : Type :=
| Returned (a : A)
| Threw (e : ErrorCode).

Arguments Returned {A} a.
Arguments Threw {A} e.

(** The two functions that the slot [acquireDomChanges] can hold:
    [acquireDomChangesSync_] and [acquireDomChangesAsync_]. *)
Inductive Allocator : Type :=
| Sync
| Async.

(** The two flush entry points that [resume] can call. *)
Inductive FlushMethod : Type :=
| Render
| RenderAsync.

(** A DOM element is known by its identity. *)
Definition Element : Type := nat.

(** JavaScript truthiness of an optional boolean argument. *)
Definition truthy (v : option bool) : bool :=
  match v with
  | Some true => true
  | _ => false
  end.

Definition is_some {A : Type} (o : option A) : bool :=
  match o with
  | Some _ => true
  | None => false
  end.

(** [a != b] on element references, [null] included. *)
Definition ref_neq (a b : option Element) : bool :=
  match a, b with
  | Some x, Some y => negb (Nat.eqb x y)
  | None, None => false
  | _, _ => true
  end.

(** ** What scene nodes may ask of the stage while they render

    [Layer.render()] and [Clip.render()] live outside [Stage.js]; they talk
    to the stage through its quota methods.  A rendering node is therefore a
    program over those methods, ending with the new state of the scene. *)
Inductive Rendering (A : Type) : Type :=
| Done (a : A)
| AcquireDomChanges (wantedCount : Z) (k : Z -> Rendering A)
| AcquireDomChange (changeType : DomChangeType) (k : bool -> Rendering A)
| BlockChangesForAdding (k : Z -> Rendering A)
| ReleaseDomChanges (allowed made : Z) (k : Rendering A).

Arguments Done {A} a.
Arguments AcquireDomChanges {A} wantedCount k.
Arguments AcquireDomChange {A} changeType k.
Arguments BlockChangesForAdding {A} k.
Arguments ReleaseDomChanges {A} allowed made k.

(** The scene graph below the stage: the root layer and the clips, whose
    code is not part of [Stage.js].  [Scene] is the state of all nodes, so a
    clip queued twice is the same clip both times. *)
Class SceneNodes (Scene Clip : Type) : Type := {
  (** [this.rootLayer_.isDirty()] *)
  layer_isDirty : Scene -> bool;
  (** [this.rootLayer_.render()] *)
  layer_render : Scene -> Rendering Scene;
  (** [clip.isDirty()] *)
  clip_isDirty : Clip -> Scene -> bool;
  (** [clip.render()] *)
  clip_render : Clip -> Scene -> Rendering Scene
}.

Section StageModel.

Context {Scene Clip : Type} `{Nodes : SceneNodes Scene Clip}.

(** ** The stage *)

(** The fields of a stage that the scheduler reads or writes, followed by
    the parts of the host it observes: the DOM parent of the root element,
    the listeners registered on the stage, the image loader of the renderer,
    and the nodes of the scene. *)
Record Stage : Type := mkStage {
  suspended_ : Z;
  container_ : option Element;
  asyncMode_ : bool;
  isRendering_ : bool;
  currentDomChangesCount : Z;
  maxDomChanges : Z;
  acquireDomChanges : Allocator;
  clipsToRender_ : list Clip;
  renderedResizeMonitor_ : bool;
  imageLoadingListener_ : bool;
  (** whether the optional member [credits] is defined on the stage *)
  credits : bool;
  (** [goog.dom.getParentElement(this.domElement_)] *)
  domParent : option Element;
  (** [goog.events.hasListener(this, STAGE_RESIZE, false) || (..., true)] *)
  resizeListeners : bool;
  (** [acgraph.getRenderer().getImageLoader()] is not null *)
  imageLoader : bool;
  (** [acgraph.getRenderer().isImageLoading()] *)
  isImageLoading : bool;
  nodes : Scene
}.

Definition set_suspended_ (v : Z) (s : Stage) : Stage :=
  mkStage v (container_ s) (asyncMode_ s) (isRendering_ s)
    (currentDomChangesCount s) (maxDomChanges s) (acquireDomChanges s)
    (clipsToRender_ s) (renderedResizeMonitor_ s) (imageLoadingListener_ s)
    (credits s) (domParent s) (resizeListeners s) (imageLoader s)
    (isImageLoading s) (nodes s).

Definition set_asyncMode_ (v : bool) (s : Stage) : Stage :=
  mkStage (suspended_ s) (container_ s) v (isRendering_ s)
    (currentDomChangesCount s) (maxDomChanges s) (acquireDomChanges s)
    (clipsToRender_ s) (renderedResizeMonitor_ s) (imageLoadingListener_ s)
    (credits s) (domParent s) (resizeListeners s) (imageLoader s)
    (isImageLoading s) (nodes s).

Definition set_isRendering_ (v : bool) (s : Stage) : Stage :=
  mkStage (suspended_ s) (container_ s) (asyncMode_ s) v
    (currentDomChangesCount s) (maxDomChanges s) (acquireDomChanges s)
    (clipsToRender_ s) (renderedResizeMonitor_ s) (imageLoadingListener_ s)
    (credits s) (domParent s) (resizeListeners s) (imageLoader s)
    (isImageLoading s) (nodes s).

Definition set_currentDomChangesCount (v : Z) (s : Stage) : Stage :=
  mkStage (suspended_ s) (container_ s) (asyncMode_ s) (isRendering_ s)
    v (maxDomChanges s) (acquireDomChanges s)
    (clipsToRender_ s) (renderedResizeMonitor_ s) (imageLoadingListener_ s)
    (credits s) (domParent s) (resizeListeners s) (imageLoader s)
    (isImageLoading s) (nodes s).

Definition set_acquireDomChanges (v : Allocator) (s : Stage) : Stage :=
  mkStage (suspended_ s) (container_ s) (asyncMode_ s) (isRendering_ s)
    (currentDomChangesCount s) (maxDomChanges s) v
    (clipsToRender_ s) (renderedResizeMonitor_ s) (imageLoadingListener_ s)
    (credits s) (domParent s) (resizeListeners s) (imageLoader s)
    (isImageLoading s) (nodes s).

Definition set_clipsToRender_ (v : list Clip) (s : Stage) : Stage :=
  mkStage (suspended_ s) (container_ s) (asyncMode_ s) (isRendering_ s)
    (currentDomChangesCount s) (maxDomChanges s) (acquireDomChanges s)
    v (renderedResizeMonitor_ s) (imageLoadingListener_ s)
    (credits s) (domParent s) (resizeListeners s) (imageLoader s)
    (isImageLoading s) (nodes s).

Definition set_renderedResizeMonitor_ (v : bool) (s : Stage) : Stage :=
  mkStage (suspended_ s) (container_ s) (asyncMode_ s) (isRendering_ s)
    (currentDomChangesCount s) (maxDomChanges s) (acquireDomChanges s)
    (clipsToRender_ s) v (imageLoadingListener_ s)
    (credits s) (domParent s) (resizeListeners s) (imageLoader s)
    (isImageLoading s) (nodes s).

Definition set_imageLoadingListener_ (v : bool) (s : Stage) : Stage :=
  mkStage (suspended_ s) (container_ s) (asyncMode_ s) (isRendering_ s)
    (currentDomChangesCount s) (maxDomChanges s) (acquireDomChanges s)
    (clipsToRender_ s) (renderedResizeMonitor_ s) v
    (credits s) (domParent s) (resizeListeners s) (imageLoader s)
    (isImageLoading s) (nodes s).

Definition set_domParent (v : option Element) (s : Stage) : Stage :=
  mkStage (suspended_ s) (container_ s) (asyncMode_ s) (isRendering_ s)
    (currentDomChangesCount s) (maxDomChanges s) (acquireDomChanges s)
    (clipsToRender_ s) (renderedResizeMonitor_ s) (imageLoadingListener_ s)
    (credits s) v (resizeListeners s) (imageLoader s)
    (isImageLoading s) (nodes s).

Definition set_nodes (v : Scene) (s : Stage) : Stage :=
  mkStage (suspended_ s) (container_ s) (asyncMode_ s) (isRendering_ s)
    (currentDomChangesCount s) (maxDomChanges s) (acquireDomChanges s)
    (clipsToRender_ s) (renderedResizeMonitor_ s) (imageLoadingListener_ s)
    (credits s) (domParent s) (resizeListeners s) (imageLoader s)
    (isImageLoading s) v.

(** ** What a method does besides changing the stage *)

(** The calls that leave the stage object, in the order they are made.
    Listeners, timers, the DOM and the renderer are the host's: a call to
    them is recorded and what they do in turn is not part of the stage. *)
Inductive Effect : Type :=
| EvDispatch (type : EventType)          (* this.dispatchEvent(type) *)
| EvSetTimeout                           (* setTimeout(this.renderAsync_, 0) *)
| EvInvoke (m : FlushMethod)             (* resume() calls a flush method *)
| EvQuota (granted count : Z)            (* a quota method moved the counter
                                            by [granted], to [count] *)
| EvClipRender (clip : Clip)             (* clip.render() *)
| EvLayerRender                          (* this.rootLayer_.render() *)
| EvCreditsRender                        (* this.credits().render() *)
| EvAppendChild (parent : option Element)(* appendChild(container, domElement) *)
| EvSetStyle                             (* goog.style.setStyle(...) *)
| EvAddClass                             (* goog.dom.classlist.add(...) *)
| EvStartResizeMonitor                   (* this.startResizeMonitor() *)
| EvListenImageLoader.                   (* goog.events.listenOnce(imageLoader, ...) *)

(** A method of the stage: from the stage before the call to how the call
    ends, the stage after it and the effects it had. *)
Definition M (A : Type) : Type := Stage -> Result A * Stage * list Effect.

Definition ret {A : Type} (a : A) : M A := fun s => (Returned a, s, []).

Definition bind {A B : Type} (m : M A) (f : A -> M B) : M B := fun s =>
  match m s with
  | (Returned a, s1, l1) =>
      match f a s1 with
      | (r, s2, l2) => (r, s2, l1 ++ l2)
      end
  | (Threw e, s1, l1) => (Threw e, s1, l1)
  end.

Definition throw {A : Type} (e : ErrorCode) : M A := fun s => (Threw e, s, []).

Definition get : M Stage := fun s => (Returned s, s, []).

Definition modify (f : Stage -> Stage) : M unit := fun s => (Returned tt, f s, []).

Definition tell (l : list Effect) : M unit := fun s => (Returned tt, s, l).

Definition when (b : bool) (m : M unit) : M unit := if b then m else ret tt.

Notation "x <- m ;; k" := (bind m (fun x => k))
  (at level 61, m at next level, right associativity).
Notation "m ;; k" := (bind m (fun _ => k))
  (at level 61, right associativity).

(** ** The quota allocators (lines 934-1008) *)

Definition acquireDomChangesSync_ (wantedCount : Z) (s : Stage) : Z * Stage :=
  (wantedCount,
   set_currentDomChangesCount (currentDomChangesCount s + wantedCount) s).

Definition acquireDomChangesAsync_ (wantedCount : Z) (s : Stage) : Z * Stage :=
  let allowed := Z.min (maxDomChanges s - currentDomChangesCount s) wantedCount in
  (allowed, set_currentDomChangesCount (currentDomChangesCount s + allowed) s).

(** [this.acquireDomChanges(wantedCount)]: the call goes to whichever
    function the slot holds. *)
Definition call_acquireDomChanges (wantedCount : Z) (s : Stage) : Z * Stage :=
  match acquireDomChanges s with
  | Sync => acquireDomChangesSync_ wantedCount s
  | Async => acquireDomChangesAsync_ wantedCount s
  end.

(** The test of [acquireDomChange]: [changeType] equals ELEMENT_CREATE,
    ELEMENT_ADD or ELEMENT_REMOVE. *)
Definition is_structural (changeType : DomChangeType) : bool :=
  let code := DomChangeType_code changeType in
  (code =? DomChangeType_code ELEMENT_CREATE) ||
  (code =? DomChangeType_code ELEMENT_ADD) ||
  (code =? DomChangeType_code ELEMENT_REMOVE).

Definition acquireDomChange (changeType : DomChangeType) (s : Stage)
  : bool * Stage :=
  if is_structural changeType
  then let (granted, s') := call_acquireDomChanges 1 s in (0 <? granted, s')
  else (true, s).

(** [Math.floor] of a nonnegative quotient is the division of [Z]. *)
Definition blockChangesForAdding (s : Stage) : Z * Stage :=
  let wanted := Z.max (maxDomChanges s - currentDomChangesCount s) 0 / 3 in
  call_acquireDomChanges wanted s.

Definition releaseDomChanges (allowed made : Z) (s : Stage) : Stage :=
  set_currentDomChangesCount (currentDomChangesCount s - (allowed - made)) s.

(** A quota method seen as a method with effects: the movement of the
    counter is recorded, unless the method did not touch the counter. *)
Definition quota {A : Type} (f : Stage -> A * Stage) : M A := fun s =>
  let (a, s') := f s in
  (Returned a, s',
   [EvQuota (currentDomChangesCount s' - currentDomChangesCount s)
            (currentDomChangesCount s')]).

Definition quota_one (changeType : DomChangeType) : M bool :=
  if is_structural changeType
  then quota (acquireDomChange changeType)
  else fun s => let (b, s') := acquireDomChange changeType s in (Returned b, s', []).

(** Running a node's rendering program against the stage. *)
Fixpoint exec {A : Type} (p : Rendering A) : M A :=
  match p with
  | Done a => ret a
  | AcquireDomChanges w k =>
      g <- quota (call_acquireDomChanges w) ;; exec (k g)
  | AcquireDomChange t k =>
      b <- quota_one t ;; exec (k b)
  | BlockChangesForAdding k =>
      g <- quota blockChangesForAdding ;; exec (k g)
  | ReleaseDomChanges allowed made k =>
      quota (fun s => (tt, releaseDomChanges allowed made s)) ;; exec k
  end.

(** Running [render()] of a node and storing what became of the scene. *)
Definition renderNode (p : Rendering Scene) : M unit :=
  sc <- exec p ;; modify (set_nodes sc).

(** What the stage expects of the nodes, whose code is not in this file.
    Its comments say how the quota methods are meant to be used:
    [acquireDomChanges] takes the "maximal number of changes to be done"
    (line 945), [releaseDomChanges (allowed, made)] "counts unused DOM
    changes" (line 1002).  A node, run on the stage [s], keeps to that when
    every amount it asks for is nonnegative and every release hands back
    unused units of what is reserved at that moment: [made <= allowed] and
    [allowed - made <= currentDomChangesCount].  The check follows the
    run: what a quota method answered on [s] is what the rest of the node
    is checked with, so a node may release what [blockChangesForAdding]
    returned to it. *)
Fixpoint disciplined {A : Type} (p : Rendering A) (s : Stage) : bool :=
  match p with
  | Done _ => true
  | AcquireDomChanges w k =>
      (0 <=? w) &&
      (let (g, s') := call_acquireDomChanges w s in disciplined (k g) s')
  | AcquireDomChange t k =>
      let (b, s') := acquireDomChange t s in disciplined (k b) s'
  | BlockChangesForAdding k =>
      let (g, s') := blockChangesForAdding s in disciplined (k g) s'
  | ReleaseDomChanges allowed made k =>
      (made <=? allowed) &&
      (allowed - made <=? currentDomChangesCount s) &&
      disciplined k (releaseDomChanges allowed made s)
  end.

(** ** Suspend counter, mode and flags (lines 678-750) *)

Definition isSuspended (s : Stage) : bool := negb (suspended_ s =? 0).

Definition isRendering (s : Stage) : bool := isRendering_ s.

(** [isDirty()], line 1127. *)
Definition isDirty (s : Stage) : bool := layer_isDirty (nodes s).

(** [asyncMode(opt_value)]: the setter returns the stage ([None] here), the
    getter the mode. *)
Definition asyncMode (opt_value : option bool) : M (option bool) :=
  match opt_value with
  | Some v => modify (set_asyncMode_ v) ;; ret None
  | None => s <- get ;; ret (Some (asyncMode_ s))
  end.

Definition dispatchRenderEvent (type : EventType) : M unit :=
  modify (fun s =>
    match type with
    | RENDER_START => set_isRendering_ true s
    | RENDER_FINISH => set_isRendering_ false s
    | _ => s
    end) ;;
  tell [EvDispatch type].

(** [this.stageRenderedDispatcher_], lines 198-201. *)
Definition stageRenderedDispatcher_ : M unit :=
  s <- get ;;
  when (negb (isRendering_ s)) (tell [EvDispatch STAGE_RENDERED]).

(** The image-loader epilogue that [render] (lines 1055-1064) and
    [renderAsync_] (lines 179-188) share word for word. *)
Definition settleImages : M unit :=
  s <- get ;;
  if imageLoader s && isImageLoading s
  then when (negb (imageLoadingListener_ s))
         (tell [EvListenImageLoader] ;; modify (set_imageLoadingListener_ true))
  else stageRenderedDispatcher_.

(** ** The flush (lines 1020-1111 and 157-190) *)

(** The loop of [renderInternal] over [this.clipsToRender_]. *)
Fixpoint renderClips (clips : list Clip) : M unit :=
  match clips with
  | [] => ret tt
  | clip :: rest =>
      s <- get ;;
      when (clip_isDirty clip (nodes s))
        (tell [EvClipRender clip] ;; renderNode (clip_render clip (nodes s))) ;;
      renderClips rest
  end.

Definition renderInternal : M unit :=
  s <- get ;;
  when (negb (Nat.eqb (length (clipsToRender_ s)) 0))
    (renderClips (clipsToRender_ s) ;; modify (set_clipsToRender_ [])) ;;
  s <- get ;;
  when (layer_isDirty (nodes s))
    (tell [EvLayerRender] ;; renderNode (layer_render (nodes s))) ;;
  s <- get ;;
  when (credits s) (tell [EvCreditsRender]).

(** [!parent || container != parent] on the root DOM element. *)
Definition needsAttach (s : Stage) : bool :=
  negb (is_some (domParent s)) || ref_neq (container_ s) (domParent s).

Definition render : M unit :=
  s <- get ;;
  if isRendering_ s then ret tt else
  modify (set_currentDomChangesCount 0) ;;
  modify (set_acquireDomChanges Sync) ;;
  dispatchRenderEvent RENDER_START ;;
  s <- get ;;
  if negb (is_some (container_ s)) then throw CONTAINER_SHOULD_BE_DEFINED else
  renderInternal ;;
  s <- get ;;
  when (needsAttach s)
    (tell [EvAppendChild (container_ s); EvSetStyle; EvAddClass] ;;
     modify (set_domParent (container_ s))) ;;
  s <- get ;;
  if isDirty s then throw DIRTY_AFTER_SYNC_RENDER else
  when (negb (renderedResizeMonitor_ s) && resizeListeners s)
    (tell [EvStartResizeMonitor] ;; modify (set_renderedResizeMonitor_ true)) ;;
  dispatchRenderEvent RENDER_FINISH ;;
  settleImages.

Definition renderAsync : M unit :=
  s <- get ;;
  if negb (isRendering_ s) then
    if negb (is_some (container_ s)) then throw CONTAINER_SHOULD_BE_DEFINED else
    dispatchRenderEvent RENDER_START ;;
    tell [EvSetTimeout]
  else ret tt.

(** One tick: the function bound to [this.renderAsync_] in the constructor. *)
Definition renderAsync_ : M unit :=
  modify (set_currentDomChangesCount 0) ;;
  modify (set_acquireDomChanges Async) ;;
  renderInternal ;;
  s <- get ;;
  when (needsAttach s)
    (tell [EvAppendChild (container_ s)] ;;
     modify (set_domParent (container_ s))) ;;
  s <- get ;;
  if isDirty s then tell [EvSetTimeout] else
  when (resizeListeners s) (tell [EvStartResizeMonitor]) ;;
  dispatchRenderEvent RENDER_FINISH ;;
  settleImages.

Definition suspend : M unit :=
  modify (fun s => set_suspended_ (suspended_ s + 1) s).

(** A call of a flush method from inside the stage, recorded as such. *)
Definition invoke (m : FlushMethod) : M unit :=
  tell [EvInvoke m] ;;
  match m with
  | Render => render
  | RenderAsync => renderAsync
  end.

Definition resume (opt_force : option bool) : M unit :=
  modify (fun s =>
    set_suspended_
      (if truthy opt_force then 0 else Z.max (suspended_ s - 1) 0) s) ;;
  s <- get ;;
  when ((suspended_ s =? 0) && is_some (container_ s))
    (if asyncMode_ s then invoke RenderAsync else invoke Render).

(** ** Sequences of calls from the application and the host *)

Inductive Call : Type :=
| CallSuspend
| CallResume (opt_force : option bool)
| CallAsyncMode (value : bool)
| CallRender
| CallRenderAsync
| CallTick.

Definition run_call (c : Call) : M unit :=
  match c with
  | CallSuspend => suspend
  | CallResume f => resume f
  | CallAsyncMode v => asyncMode (Some v) ;; ret tt
  | CallRender => render
  | CallRenderAsync => renderAsync
  | CallTick => renderAsync_
  end.

(** The caller goes on after an exception, on the stage as the failed call
    left it. *)
Fixpoint run_calls (cs : list Call) (s : Stage) : Stage * list Effect :=
  match cs with
  | [] => (s, [])
  | c :: rest =>
      match run_call c s with
      | (_, s1, l1) =>
          match run_calls rest s1 with
          | (s2, l2) => (s2, l1 ++ l2)
          end
      end
  end.

(** ** Reading the record of effects *)

(** Calls that reach the backend: rendering of nodes and DOM surgery. *)
Definition is_backend_op (e : Effect) : bool :=
  match e with
  | EvClipRender _ | EvLayerRender | EvCreditsRender
  | EvAppendChild _ | EvSetStyle | EvAddClass | EvQuota _ _ => true
  | _ => false
  end.

Definition backend_ops (l : list Effect) : list Effect := filter is_backend_op l.

(** Units granted minus units given back, over a record. *)
Fixpoint net_granted (l : list Effect) : Z :=
  match l with
  | [] => 0
  | EvQuota g _ :: l' => g + net_granted l'
  | _ :: l' => net_granted l'
  end.

(** The values the counter took, in order. *)
Fixpoint quota_counts (l : list Effect) : list Z :=
  match l with
  | [] => []
  | EvQuota _ c :: l' => c :: quota_counts l'
  | _ :: l' => quota_counts l'
  end.

(** The movements of the counter, in order: what a quota method granted,
    or, negative, what was handed back. *)
Fixpoint quota_grants (l : list Effect) : list Z :=
  match l with
  | [] => []
  | EvQuota g _ :: l' => g :: quota_grants l'
  | _ :: l' => quota_grants l'
  end.

(** The record [l] moves the counter from [c] to [c_end] and every value
    on the way lies between [0] and [cap]. *)
Fixpoint quota_trace (cap c : Z) (l : list Effect) (c_end : Z) : Prop :=
  match l with
  | [] => c_end = c
  | EvQuota g c' :: l' =>
      c' = c + g /\ 0 <= c' <= cap /\ quota_trace cap c' l' c_end
  | _ :: l' => quota_trace cap c l' c_end
  end.

Definition is_invoke (e : Effect) : bool :=
  match e with
  | EvInvoke _ => true
  | _ => false
  end.

(** ** Vocabulary for the properties below *)

(** What no flush touches: the suspend counter, the container, the mode,
    the per-tick maximum and the optional [credits] member. *)
Definition same_config (s s' : Stage) : Prop :=
  suspended_ s' = suspended_ s /\
  container_ s' = container_ s /\
  asyncMode_ s' = asyncMode_ s /\
  maxDomChanges s' = maxDomChanges s /\
  credits s' = credits s.

(** Every effect of [m] satisfies [P] and the stage after is related to
    the stage before by [R], however the call ends. *)
Definition respects (P : Effect -> Prop) (R : Stage -> Stage -> Prop)
    {A : Type} (m : M A) : Prop :=
  forall s, Forall P (snd (m s)) /\ R s (snd (fst (m s))).

(** A stage in the middle of a tick with the maximum [cap]: the
    incremental allocator is installed and the counter lies between [0]
    and [cap]. *)
Definition in_budget (cap : Z) (s : Stage) : Prop :=
  acquireDomChanges s = Async /\
  maxDomChanges s = cap /\
  0 <= currentDomChangesCount s <= cap.

(** The outcome [out] of a call made on [s] leaves the stage in budget,
    and the counter was in budget at every step of the call. *)
Definition stays_in_budget (cap : Z) {A : Type} (s : Stage)
    (out : Result A * Stage * list Effect) : Prop :=
  match out with
  | (_, s', l) =>
      in_budget cap s' /\
      quota_trace cap (currentDomChangesCount s) l (currentDomChangesCount s')
  end.

(** Started in budget, [m] stays in budget. *)
Definition capped (cap : Z) {A : Type} (m : M A) : Prop :=
  forall s, in_budget cap s -> stays_in_budget cap s (m s).

(** The nodes of the scene keep to the quota on every stage that is in
    budget, whatever the state of the scene. *)
Definition disciplined_nodes (cap : Z) : Prop :=
  forall s sc,
    in_budget cap s ->
    disciplined (layer_render sc) s = true /\
    forall c, disciplined (clip_render c sc) s = true.

End StageModel.

Notation "x <- m ;; k" := (bind m (fun x => k))
  (at level 61, m at next level, right associativity).
Notation "m ;; k" := (bind m (fun _ => k))
  (at level 61, right associativity).

Arguments Stage : clear implicits.
Arguments Effect : clear implicits.

(** ** A small scene to run the model on *)

Module Demo.

(** The root layer still has [pending] elements to create; the one clip of
    the scene is dirty or not. *)
Record Scene : Type := mkScene {
  pending : Z;
  clipDirty : bool
}.

Definition Clip : Type := unit.

(** The layer reserves the adding share, creates what it is granted and
    hands the reserve back. *)
Definition render_layer (sc : Scene) : Rendering Scene :=
  BlockChangesForAdding (fun blocked =>
  AcquireDomChanges (pending sc) (fun created =>
  ReleaseDomChanges (Z.max blocked 0) 0
    (Done (mkScene (pending sc - created) (clipDirty sc))))).

(** The clip needs one element. *)
Definition render_clip (c : Clip) (sc : Scene) : Rendering Scene :=
  AcquireDomChange ELEMENT_CREATE (fun granted =>
  Done (mkScene (pending sc) (if granted then false else clipDirty sc))).

#[global] Instance nodes : SceneNodes Scene Clip := {|
  layer_isDirty := fun sc => 0 <? pending sc;
  layer_render := render_layer;
  clip_isDirty := fun _ sc => clipDirty sc;
  clip_render := render_clip
|}.

(** A stage with the defaults of the prototype ([maxDomChanges] apart,
    which is [cap]), not suspended, nothing attached to the DOM yet. *)
Definition stage (container : option Element) (rendering : bool) (cap : Z)
    (clips : list Clip) (sc : Scene) : Stage Scene Clip :=
  mkStage 0 container false rendering 0 cap Sync clips
          false false false None false false false sc.

(** The same stage in the middle of a tick: incremental allocator
    installed, [used] units of the budget gone. *)
Definition ticking (used cap : Z) (sc : Scene) : Stage Scene Clip :=
  mkStage 0 (Some 7%nat) true true used cap Async []
          false false false (Some 7%nat) false false false sc.

End Demo.

(** ** The queue of clips (lines 2541-2556) and the image loader's callback *)

Section ClipQueue.

Context {Scene Clip : Type} `{Nodes : SceneNodes Scene Clip}.

(** Clips are objects: two references are the same clip or not. *)
Variable Clip_eq_dec : forall a b : Clip, {a = b} + {a <> b}.

(** [addClipForRender]: a stage that is not suspended renders the clip on
    the spot, a suspended one pushes it at the end of the array. *)
Definition addClipForRender (clip : Clip) : @M Scene Clip unit :=
  s <- get ;;
  if negb (isSuspended s)
  then tell [EvClipRender clip] ;; renderNode (clip_render clip (nodes s))
  else modify (fun s => set_clipsToRender_ (clipsToRender_ s ++ [clip]) s).

(** [goog.array.remove(arr, obj)]: the first element identical to [obj]
    is cut out, if there is one. *)
Fixpoint array_remove (clip : Clip) (arr : list Clip) : list Clip :=
  match arr with
  | [] => []
  | c :: rest =>
      if Clip_eq_dec c clip then rest else c :: array_remove clip rest
  end.

Definition removeClipFromRender (clip : Clip) : @M Scene Clip unit :=
  modify (fun s => set_clipsToRender_ (array_remove clip (clipsToRender_ s)) s).

(** Adding several clips, one call after the other. *)
Fixpoint addClipsForRender (clips : list Clip) : @M Scene Clip unit :=
  match clips with
  | [] => ret tt
  | clip :: rest => addClipForRender clip ;; addClipsForRender rest
  end.

(** The listener that [render] and [renderAsync_] register on the image
    loader (lines 1059-1062 and 183-186), run when loading completes. *)
Definition imageLoadingComplete : @M Scene Clip unit :=
  stageRenderedDispatcher_ ;;
  modify (set_imageLoadingListener_ false).

End ClipQueue.

(** ** More readings of the record of effects *)

Definition is_dispatch {Clip : Type} (e : Effect Clip) : bool :=
  match e with
  | EvDispatch _ => true
  | _ => false
  end.

(** What scene nodes can cause: their own rendering and quota movements. *)
Definition is_node_effect {Clip : Type} (e : Effect Clip) : bool :=
  match e with
  | EvQuota _ _ | EvClipRender _ | EvLayerRender | EvCreditsRender => true
  | _ => false
  end.

Definition is_attach {Clip : Type} (e : Effect Clip) : bool :=
  match e with
  | EvAppendChild _ => true
  | _ => false
  end.

Definition is_timeout {Clip : Type} (e : Effect Clip) : bool :=
  match e with
  | EvSetTimeout => true
  | _ => false
  end.

Definition is_resize_monitor {Clip : Type} (e : Effect Clip) : bool :=
  match e with
  | EvStartResizeMonitor => true
  | _ => false
  end.

Definition is_clip_render {Clip : Type} (e : Effect Clip) : bool :=
  match e with
  | EvClipRender _ => true
  | _ => false
  end.

Definition is_layer_render {Clip : Type} (e : Effect Clip) : bool :=
  match e with
  | EvLayerRender | EvCreditsRender => true
  | _ => false
  end.

Definition is_listen {Clip : Type} (e : Effect Clip) : bool :=
  match e with
  | EvListenImageLoader => true
  | _ => false
  end.

Definition is_event {Clip : Type} (type : EventType) (e : Effect Clip) : bool :=
  match e with
  | EvDispatch RENDER_START =>
      match type with RENDER_START => true | _ => false end
  | EvDispatch RENDER_FINISH =>
      match type with RENDER_FINISH => true | _ => false end
  | EvDispatch STAGE_RESIZE =>
      match type with STAGE_RESIZE => true | _ => false end
  | EvDispatch STAGE_RENDERED =>
      match type with STAGE_RENDERED => true | _ => false end
  | _ => false
  end.

(** [s'] differs from [s] at most in the counter, the queue of clips and
    the scene: what [renderInternal] can touch. *)
Definition flush_frame {Scene Clip : Type} (s s' : Stage Scene Clip) : Prop :=
  s' = set_nodes (nodes s')
         (set_clipsToRender_ (clipsToRender_ s')
            (set_currentDomChangesCount (currentDomChangesCount s') s)).

(** The stage as [render] hands it to [renderInternal]: counter reset,
    synchronous allocator installed, RENDER_START dispatched. *)
Definition prepared {Scene Clip : Type} (s : Stage Scene Clip)
  : Stage Scene Clip :=
  set_isRendering_ true
    (set_acquireDomChanges Sync (set_currentDomChangesCount 0 s)).

(** The stage as a tick hands it to [renderInternal]. *)
Definition prepared_tick {Scene Clip : Type} (s : Stage Scene Clip)
  : Stage Scene Clip :=
  set_acquireDomChanges Async (set_currentDomChangesCount 0 s).

(** How many effects of a kind a record holds. *)
Definition count_where {Clip : Type} (kind : Effect Clip -> bool)
    (l : list (Effect Clip)) : nat :=
  length (filter kind l).

(** ** Identifier, title and description (lines 897-909 and 2252-2281) *)

Module Labels.

Import String.
Local Open Scope string_scope.

(** A value of type [string|null|undefined]. *)
Inductive Text : Type :=
| Undefined
| Null
| Str (s : string).

(** [a != b] is [negb (loose_eq a b)]: [null] and [undefined] are loosely
    equal to each other and to nothing else. *)
Definition loose_eq (a b : Text) : bool :=
  match a, b with
  | Str x, Str y => String.eqb x y
  | Str _, _ | _, Str _ => false
  | _, _ => true
  end.

(** The three fields these methods own. *)
Record Attrs : Type := mkAttrs {
  id_ : option string;
  titleVal_ : Text;
  descVal_ : Text
}.

(** The calls they make outside the stage. *)
Inductive Call : Type :=
| GenerateId             (* IdGenerator.getInstance().generateId(this) *)
| SetId (id : string)    (* acgraph.getRenderer().setId(this, id) *)
| SetTitle (t : Text)    (* acgraph.getRenderer().setTitle(this, t) *)
| SetDesc (t : Text).    (* acgraph.getRenderer().setDesc(this, t) *)

(** [opt_value || ''] on a string. *)
Definition or_empty (v : string) : string :=
  if String.eqb v "" then "" else v.

(** The setter branch of [id]. *)
Definition set_id (v : string) (a : Attrs) : Attrs * list Call :=
  let id := or_empty v in
  match id_ a with
  | Some old =>
      if String.eqb old id then (a, [])
      else (mkAttrs (Some id) (titleVal_ a) (descVal_ a), [SetId id])
  | None => (mkAttrs (Some id) (titleVal_ a) (descVal_ a), [SetId id])
  end.

(** [id(opt_value)]; [generated] is what the generator answers if asked.
    The setter returns the stage ([None]), the getter the identifier. *)
Definition id (generated : string) (opt_value : option string) (a : Attrs)
  : option string * Attrs * list Call :=
  match opt_value with
  | Some v => let (a', l) := set_id v a in (None, a', l)
  | None =>
      match id_ a with
      | Some _ => (id_ a, a, [])
      | None =>
          let (a', l) := set_id generated a in (id_ a', a', GenerateId :: l)
      end
  end.

(** [title(opt_value)]: [Undefined] is the call without argument; the
    setter returns the stage ([None]). *)
Definition title (opt_value : Text) (a : Attrs)
  : option Text * Attrs * list Call :=
  match opt_value with
  | Undefined => (Some (titleVal_ a), a, [])
  | _ =>
      if negb (loose_eq (titleVal_ a) opt_value)
      then (None, mkAttrs (id_ a) opt_value (descVal_ a), [SetTitle opt_value])
      else (None, a, [])
  end.

Definition desc (opt_value : Text) (a : Attrs)
  : option Text * Attrs * list Call :=
  match opt_value with
  | Undefined => (Some (descVal_ a), a, [])
  | _ =>
      if negb (loose_eq (descVal_ a) opt_value)
      then (None, mkAttrs (id_ a) (titleVal_ a) opt_value, [SetDesc opt_value])
      else (None, a, [])
  end.

(** A stage as the constructor leaves these fields. *)
Definition fresh : Attrs := mkAttrs None Undefined Undefined.

End Labels.

(** ** A scene with several clips *)

Module Gallery.

(** The root layer still has [pending] elements to create; [dirtyClips]
    are the clips that need rendering. *)
Record Scene : Type := mkScene {
  pending : Z;
  dirtyClips : list nat
}.

Definition Clip : Type := nat.

Definition render_layer (sc : Scene) : Rendering Scene :=
  AcquireDomChanges (pending sc) (fun created =>
  Done (mkScene (pending sc - created) (dirtyClips sc))).

Definition render_clip (c : Clip) (sc : Scene) : Rendering Scene :=
  AcquireDomChange ELEMENT_CREATE (fun granted =>
  Done (mkScene (pending sc)
          (if granted
           then filter (fun d => negb (Nat.eqb d c)) (dirtyClips sc)
           else dirtyClips sc))).

Definition nodes : SceneNodes Scene Clip := {|
  layer_isDirty := fun sc => 0 <? pending sc;
  layer_render := render_layer;
  clip_isDirty := fun c sc => existsb (Nat.eqb c) (dirtyClips sc);
  clip_render := render_clip
|}.

Definition stage (suspended : Z) (container : option Element) (async : bool)
    (clips : list Clip) (sc : Scene) : Stage Scene Clip :=
  mkStage suspended container async false 0 500 Sync clips
          false false false None false false false sc.

End Gallery.

(** ** A layer that reserves before it creates

    The layer reserves the adding share, creates what it is granted and
    hands back the part of the reserve that the created elements do not
    need. *)

Module Reserving.

Record Scene : Type := mkScene {
  pending : nat
}.

Definition Clip : Type := unit.

Definition render_layer (sc : Scene) : Rendering Scene :=
  BlockChangesForAdding (fun blocked =>
  AcquireDomChanges (Z.of_nat (pending sc)) (fun created =>
  ReleaseDomChanges blocked (Z.min blocked created)
    (Done (mkScene (pending sc - Z.to_nat created)%nat)))).

Definition nodes : SceneNodes Scene Clip := {|
  layer_isDirty := fun sc => negb (Nat.eqb (pending sc) 0);
  layer_render := render_layer;
  clip_isDirty := fun _ _ => false;
  clip_render := fun _ sc => Done sc
|}.

(** An attached stage in the middle of an asynchronous flush. *)
Definition stage (cap : Z) (sc : Scene) : Stage Scene Clip :=
  mkStage 0 (Some 7%nat) true true 0 cap Async []
          false false false (Some 7%nat) false false false sc.

End Reserving.

(** ** A layer that hands back what it never reserved *)

Module Greedy.

(** Whether the layer is dirty. *)
Definition Scene : Type := bool.

Definition Clip : Type := unit.

Definition render_layer (sc : Scene) : Rendering Scene :=
  ReleaseDomChanges 500 0
    (AcquireDomChanges 1000 (fun _ => Done false)).

Definition nodes : SceneNodes Scene Clip := {|
  layer_isDirty := fun sc => sc;
  layer_render := render_layer;
  clip_isDirty := fun _ _ => false;
  clip_render := fun _ sc => Done sc
|}.

Definition stage (cap : Z) (sc : Scene) : Stage Scene Clip :=
  mkStage 0 (Some 7%nat) true true 0 cap Async []
          false false false (Some 7%nat) false false false sc.

End Greedy.

(** ** Export of PNG and JPG images

    [shareUrl_] (1231-1250), [addPngData_] (1261-1269), [shareAsPng]
    (1282-1291), [addJpgData_] (1303-1312), [shareAsJpg] (1326-1335),
    [getPngBase64String] (1458-1467), [getJpgBase64String] (1479-1488),
    [saveAsPng] (1539-1548), [saveAsJpg] (1559-1568), [toSvg] called
    without arguments (1625-1662), [serializeToString_] (1670-1679) and
    [getHelperElement] (642-652).  The renderer, the XML serializer, the
    HTTP client and the helper element are the host: calls to them are
    recorded. *)

Module Exporting.

Import String.
Local Open Scope string_scope.
Local Open Scope list_scope.

(** [acgraph.type()]: the backend in use. *)
Inductive StageType : Type :=
| SVG
| VML.

(** [acgraph.vector.Stage.ExportType] (lines 1208-1213). *)
Inductive ExportType : Type :=
| ExportSVG
| ExportJPG
| ExportPNG
| ExportPDF.

Definition ExportType_code (t : ExportType) : string :=
  match t with
  | ExportSVG => "svg"
  | ExportJPG => "jpg"
  | ExportPNG => "png"
  | ExportPDF => "pdf"
  end.

(** How a method ends: it returns, or it dereferences [null]. *)
Inductive Outcome : Type :=
| Returns
| TypeError.

Section Requests.

(** JavaScript numbers; this code only passes them on. *)
Variable Num : Type.

(** The values these methods store in a request. *)
Inductive Value : Type :=
| VString (s : string)
| VNumber (n : Num)
| VBoolean (b : bool).

(** A plain object: its own properties in the order of their creation. *)
Definition Object : Type := list (string * Value).

(** [data[k] = v]. *)
Fixpoint obj_set (k : string) (v : Value) (data : Object) : Object :=
  match data with
  | [] => [(k, v)]
  | (k', v') :: rest =>
      if String.eqb k' k then (k, v) :: rest
      else (k', v') :: obj_set k v rest
  end.

(** [data[k]]; [None] is [undefined]. *)
Fixpoint obj_get (k : string) (data : Object) : option Value :=
  match data with
  | [] => None
  | (k', v') :: rest => if String.eqb k' k then Some v' else obj_get k rest
  end.

(** [if (goog.isDef(v)) data[k] = v]. *)
Definition set_if_def (k : string) (v : option Value) (data : Object)
  : Object :=
  match v with
  | Some x => obj_set k x data
  | None => data
  end.

(** A size as [width()] takes it: a number or a string such as ['100%']. *)
Inductive Length : Type :=
| Px (n : Num)
| Spec (s : string).

(** The fields of the stage this code reads or writes. *)
Record Canvas : Type := mkCanvas {
  domElement_ : option Element;
  width_ : Num;
  height_ : Num;
  originalWidth : Length;
  originalHeight : Length;
  originContainer_ : option Element;
  (** whether [helperElement_] holds a helper element *)
  helperElement_ : bool
}.

Definition set_helperElement_ (v : bool) (c : Canvas) : Canvas :=
  mkCanvas (domElement_ c) (width_ c) (height_ c) (originalWidth c)
           (originalHeight c) (originContainer_ c) v.

(** What the host answers: the backend, and the text the XML serializer
    produces for the root element. *)
Record Host : Type := mkHost {
  type : StageType;
  serialized : string
}.

(** The calls made outside the stage. *)
Inductive Effect : Type :=
| SetStageSize (w h : Length)
    (* acgraph.getRenderer().setStageSize(this.domElement(), w, h) *)
| SerializeToString
    (* new XMLSerializer().serializeToString(node) *)
| Alert
    (* alert(getErrorMessage(FEATURE_NOT_SUPPORTED_IN_VML)) *)
| XhrSend (path property : string) (data : Object)
    (* goog.net.XhrIo.send(acgraph.exportServer + path, callback, 'POST',
       query string of data); on success the callback hands
       response[property] to onSuccess *)
| NewHelperElement
    (* new acgraph.utils.HelperElement(this, this.originContainer_),
       registered as disposable *)
| SendRequestToExportServer (path : string) (options : Object).
    (* helper.sendRequestToExportServer(acgraph.exportServer + path, options) *)

Variable host : Host.

Definition serializeToString_ (node : option Element)
  : string * list Effect :=
  if is_some node then (serialized host, [SerializeToString]) else ("", []).

(** [toSvg()], as these builders call it: no page size is given, so the
    branch that resizes the container and renders is not taken. *)
Definition toSvg (c : Canvas) : string * list Effect :=
  match type host with
  | VML => ("", [])
  | SVG =>
      let (result, l) := serializeToString_ (domElement_ c) in
      (result,
       SetStageSize (Px (width_ c)) (Px (height_ c)) :: l ++
       [SetStageSize (originalWidth c) (originalHeight c)])
  end.

Definition getHelperElement (c : Canvas) : bool * Canvas * list Effect :=
  if negb (helperElement_ c)
  then if is_some (originContainer_ c)
       then (true, set_helperElement_ true c, [NewHelperElement])
       else (false, c, [])
  else (true, c, []).

Definition shareUrl_ (t : ExportType) (data : Object)
    (asBase64 saveAndShare : bool) : list Effect :=
  let data := if asBase64
              then obj_set "responseType" (VString "base64") data
              else data in
  let data := if saveAndShare
              then obj_set "save" (VBoolean true) data
              else data in
  let property := if saveAndShare then "url" else "result" in
  [XhrSend (String.append "/" (ExportType_code t)) property data].

Definition addPngData_ (c : Canvas) (data : Object)
    (opt_width opt_height opt_quality : option Num)
    (opt_filename : option string) : Object * list Effect :=
  let (svg, l) := toSvg c in
  let data := obj_set "data" (VString svg) data in
  let data := obj_set "dataType" (VString "svg") data in
  let data := obj_set "responseType" (VString "file") data in
  let data := set_if_def "width" (option_map VNumber opt_width) data in
  let data := set_if_def "height" (option_map VNumber opt_height) data in
  let data := set_if_def "quality" (option_map VNumber opt_quality) data in
  let data := set_if_def "file-name" (option_map VString opt_filename) data in
  (data, l).

Definition addJpgData_ (c : Canvas) (data : Object)
    (opt_width opt_height opt_quality : option Num)
    (opt_forceTransparentWhite : option bool)
    (opt_filename : option string) : Object * list Effect :=
  let (svg, l) := toSvg c in
  let data := obj_set "data" (VString svg) data in
  let data := obj_set "dataType" (VString "svg") data in
  let data := obj_set "responseType" (VString "file") data in
  let data := set_if_def "width" (option_map VNumber opt_width) data in
  let data := set_if_def "height" (option_map VNumber opt_height) data in
  let data := set_if_def "quality" (option_map VNumber opt_quality) data in
  let data := set_if_def "force-transparent-white"
                (option_map VBoolean opt_forceTransparentWhite) data in
  let data := set_if_def "file-name" (option_map VString opt_filename) data in
  (data, l).

Definition shareAsPng (c : Canvas) (opt_asBase64 : option bool)
    (opt_width opt_height opt_quality : option Num)
    (opt_filename : option string) : list Effect :=
  match type host with
  | SVG =>
      let (data, l) :=
        addPngData_ c [] opt_width opt_height opt_quality opt_filename in
      l ++ shareUrl_ ExportPNG data (truthy opt_asBase64) true
  | VML => [Alert]
  end.

Definition shareAsJpg (c : Canvas) (opt_asBase64 : option bool)
    (opt_width opt_height opt_quality : option Num)
    (opt_forceTransparentWhite : option bool)
    (opt_filename : option string) : list Effect :=
  match type host with
  | SVG =>
      let (data, l) :=
        addJpgData_ c [] opt_width opt_height opt_quality
                    opt_forceTransparentWhite opt_filename in
      l ++ shareUrl_ ExportJPG data (truthy opt_asBase64) true
  | VML => [Alert]
  end.

Definition getPngBase64String (c : Canvas)
    (opt_width opt_height opt_quality : option Num) : list Effect :=
  match type host with
  | SVG =>
      let (data, l) :=
        addPngData_ c [] opt_width opt_height opt_quality None in
      l ++ shareUrl_ ExportPNG data true false
  | VML => [Alert]
  end.

Definition getJpgBase64String (c : Canvas)
    (opt_width opt_height opt_quality : option Num)
    (opt_forceTransparentWhite : option bool) : list Effect :=
  match type host with
  | SVG =>
      let (data, l) :=
        addJpgData_ c [] opt_width opt_height opt_quality
                    opt_forceTransparentWhite None in
      l ++ shareUrl_ ExportJPG data true false
  | VML => [Alert]
  end.

(** [this.getHelperElement().sendRequestToExportServer(...)]: the helper is
    looked up first, and calling a method of [null] is a TypeError. *)
Definition saveAsPng (c : Canvas)
    (opt_width opt_height opt_quality : option Num)
    (opt_filename : option string) : Outcome * Canvas * list Effect :=
  match type host with
  | SVG =>
      let (options, l) :=
        addPngData_ c [] opt_width opt_height opt_quality opt_filename in
      let '(helper, c', l') := getHelperElement c in
      if helper
      then (Returns, c',
            l ++ l' ++ [SendRequestToExportServer "/png" options])
      else (TypeError, c', l ++ l')
  | VML => (Returns, c, [Alert])
  end.

Definition saveAsJpg (c : Canvas)
    (opt_width opt_height opt_quality : option Num)
    (opt_forceTransparentWhite : option bool)
    (opt_filename : option string) : Outcome * Canvas * list Effect :=
  match type host with
  | SVG =>
      let (options, l) :=
        addJpgData_ c [] opt_width opt_height opt_quality
                    opt_forceTransparentWhite opt_filename in
      let '(helper, c', l') := getHelperElement c in
      if helper
      then (Returns, c',
            l ++ l' ++ [SendRequestToExportServer "/jpg" options])
      else (TypeError, c', l ++ l')
  | VML => (Returns, c, [Alert])
  end.

(** What a request for an image says: the SVG text, its type, the form of
    the answer, whether the server keeps the file, the optional settings
    that were given, and nothing else. *)
Definition image_request (data : Object) (svg responseType : string)
    (save : bool) (opt_width opt_height opt_quality : option Num)
    (opt_forceTransparentWhite : option bool) (opt_filename : option string)
  : Prop :=
  obj_get "data" data = Some (VString svg) /\
  obj_get "dataType" data = Some (VString "svg") /\
  obj_get "responseType" data = Some (VString responseType) /\
  obj_get "save" data = (if save then Some (VBoolean true) else None) /\
  obj_get "width" data = option_map VNumber opt_width /\
  obj_get "height" data = option_map VNumber opt_height /\
  obj_get "quality" data = option_map VNumber opt_quality /\
  obj_get "force-transparent-white" data
  = option_map VBoolean opt_forceTransparentWhite /\
  obj_get "file-name" data = option_map VString opt_filename /\
  forall k,
    ~ In k ["data"; "dataType"; "responseType"; "save"; "width"; "height";
            "quality"; "force-transparent-white"; "file-name"] ->
    obj_get k data = None.

(** The requests a record of effects holds. *)
Definition is_request (e : Effect) : bool :=
  match e with
  | XhrSend _ _ _ | SendRequestToExportServer _ _ => true
  | _ => false
  end.

End Requests.

Arguments VString {Num} s.
Arguments VNumber {Num} n.
Arguments VBoolean {Num} b.
Arguments Px {Num} n.
Arguments Spec {Num} s.
Arguments SetStageSize {Num} w h.
Arguments SerializeToString {Num}.
Arguments Alert {Num}.
Arguments XhrSend {Num} path property data.
Arguments NewHelperElement {Num}.
Arguments SendRequestToExportServer {Num} path options.
Arguments obj_set {Num} k v data.
Arguments obj_get {Num} k data.
Arguments set_if_def {Num} k v data.
Arguments mkCanvas {Num}.
Arguments domElement_ {Num} c.
Arguments width_ {Num} c.
Arguments height_ {Num} c.
Arguments originalWidth {Num} c.
Arguments originalHeight {Num} c.
Arguments originContainer_ {Num} c.
Arguments helperElement_ {Num} c.
Arguments set_helperElement_ {Num} v c.
Arguments serializeToString_ {Num} host node.
Arguments toSvg {Num} host c.
Arguments getHelperElement {Num} c.
Arguments shareUrl_ {Num} t data asBase64 saveAndShare.
Arguments addPngData_ {Num} host c data.
Arguments addJpgData_ {Num} host c data.
Arguments shareAsPng {Num} host c.
Arguments shareAsJpg {Num} host c.
Arguments getPngBase64String {Num} host c.
Arguments getJpgBase64String {Num} host c.
Arguments saveAsPng {Num} host c.
Arguments saveAsJpg {Num} host c.
Arguments is_request {Num} e.
Arguments image_request {Num} data svg responseType save.

End Exporting.

(** * Properties *)

Section StageFacts.

Context {Scene Clip : Type} `{Nodes : SceneNodes Scene Clip}.

Local Abbreviation Stage := (Stage Scene Clip).
Local Abbreviation Effect := (Effect Clip).

Implicit Types (s : Stage) (l : list Effect).

(** ** The allocators *)

Lemma call_acquireDomChanges_count (w : Z) s :
  snd (call_acquireDomChanges w s)
  = set_currentDomChangesCount
      (currentDomChangesCount s + fst (call_acquireDomChanges w s)) s.
Proof.
  unfold call_acquireDomChanges.
  destruct (acquireDomChanges s); reflexivity.
Qed.

(** C3, as the code has it: for a nonnegative request the incremental
    allocator returns [min (maxDomChanges - currentDomChangesCount) wanted]
    and adds exactly that to the counter; the grant is at most [wanted],
    and it is nonnegative, so within [0, wanted], exactly when the counter
    has not passed the maximum.  The synchronous allocator returns the
    whole request, whatever it is. *)
Theorem acquireDomChanges_contract (wanted : Z) s :
  0 <= wanted ->
  (let (granted, s') := acquireDomChangesAsync_ wanted s in
   granted = Z.min (maxDomChanges s - currentDomChangesCount s) wanted /\
   granted <= wanted /\
   (0 <= granted <-> currentDomChangesCount s <= maxDomChanges s) /\
   (currentDomChangesCount s <= maxDomChanges s -> 0 <= granted <= wanted) /\
   currentDomChangesCount s' = currentDomChangesCount s + granted /\
   s' = set_currentDomChangesCount (currentDomChangesCount s + granted) s) /\
  (forall w, fst (acquireDomChangesSync_ w s) = w /\
             currentDomChangesCount (snd (acquireDomChangesSync_ w s))
             = currentDomChangesCount s + w).
Proof.
  intros Hw. split.
  - unfold acquireDomChangesAsync_. cbn.
    repeat split; try reflexivity; lia.
  - intro w. split; reflexivity.
Qed.

(** C4: a structural kind asks the installed allocator for exactly one
    unit and returns whether it got it, the counter moving by one exactly
    when it did; a fill or a stroke returns true and leaves the stage as it
    was, whichever allocator is installed. *)
Theorem acquireDomChange_budget (changeType : DomChangeType) s :
  (In changeType [APPLY_FILL; APPLY_STROKE] ->
   acquireDomChange changeType s = (true, s)) /\
  (In changeType [ELEMENT_CREATE; ELEMENT_ADD; ELEMENT_REMOVE] ->
   let (ok, s') := acquireDomChange changeType s in
   (ok, s') = (0 <? fst (call_acquireDomChanges 1 s),
               snd (call_acquireDomChanges 1 s)) /\
   (acquireDomChanges s = Sync ->
    ok = true /\
    s' = set_currentDomChangesCount (currentDomChangesCount s + 1) s) /\
   (acquireDomChanges s = Async ->
    currentDomChangesCount s <= maxDomChanges s ->
    ok = (currentDomChangesCount s <? maxDomChanges s) /\
    s' = set_currentDomChangesCount
           (currentDomChangesCount s + (if ok then 1 else 0)) s)).
Proof.
  split.
  - intros [<- | [<- | []]]; reflexivity.
  - intros Hin.
    assert (Hs : is_structural changeType = true)
      by (destruct Hin as [<- | [<- | [<- | []]]]; reflexivity).
    unfold acquireDomChange. rewrite Hs.
    unfold call_acquireDomChanges.
    destruct (acquireDomChanges s) eqn:Ha; cbn.
    + repeat split; try reflexivity; intros; discriminate.
    + split; [reflexivity|]. split; [intros; discriminate|].
      intros _ Hc.
      destruct (Z.ltb_spec (currentDomChangesCount s) (maxDomChanges s)) as [Hlt|Hge].
      * rewrite Z.min_r by lia. split; reflexivity.
      * rewrite Z.min_l by lia.
        replace (maxDomChanges s - currentDomChangesCount s) with 0 by lia.
        split; reflexivity.
Qed.

(** C9: [blockChangesForAdding] asks the installed allocator for
    [floor (max (maxDomChanges - currentDomChangesCount) 0 / 3)] units and
    returns what it is granted; three times the grant never exceeds what
    is left of the budget. *)
Theorem blockChangesForAdding_third s :
  let remaining := Z.max (maxDomChanges s - currentDomChangesCount s) 0 in
  blockChangesForAdding s = call_acquireDomChanges (remaining / 3) s /\
  3 * fst (blockChangesForAdding s) <= remaining /\
  currentDomChangesCount (snd (blockChangesForAdding s))
  = currentDomChangesCount s + fst (blockChangesForAdding s).
Proof.
  intro remaining. split; [reflexivity|].
  unfold blockChangesForAdding. fold remaining.
  assert (Hr : 0 <= remaining) by (unfold remaining; lia).
  assert (Hd : 3 * (remaining / 3) <= remaining)
    by (apply Z.mul_div_le; lia).
  assert (Hd0 : 0 <= remaining / 3) by (apply Z.div_pos; lia).
  unfold call_acquireDomChanges, acquireDomChangesSync_, acquireDomChangesAsync_.
  destruct (acquireDomChanges s); cbn [fst snd currentDomChangesCount set_currentDomChangesCount];
    split; try reflexivity; lia.
Qed.

(** ** Rules for composing methods *)

Section Rules.

Variable P : Effect -> Prop.
Variable R : Stage -> Stage -> Prop.
Hypothesis R_refl : forall s, R s s.
Hypothesis R_trans : forall s1 s2 s3, R s1 s2 -> R s2 s3 -> R s1 s3.

Lemma respects_ret {A : Type} (a : A) : respects P R (ret a).
Proof. intro s. cbn. auto. Qed.

Lemma respects_get : respects P R get.
Proof. intro s. cbn. auto. Qed.

Lemma respects_throw {A : Type} (e : ErrorCode) : respects P R (@throw _ _ A e).
Proof. intro s. cbn. auto. Qed.

Lemma respects_tell l : Forall P l -> respects P R (tell l).
Proof. intros Hl s. cbn. auto. Qed.

Lemma respects_modify (f : Stage -> Stage) :
  (forall s, R s (f s)) -> respects P R (modify f).
Proof. intros Hf s. cbn. auto. Qed.

Lemma respects_bind {A B : Type} (m : M A) (f : A -> M B) :
  respects P R m -> (forall a, respects P R (f a)) -> respects P R (bind m f).
Proof.
  intros Hm Hf s. unfold bind.
  specialize (Hm s). destruct (m s) as [[[a|e] s1] l1]; cbn in *.
  - specialize (Hf a s1). destruct (f a s1) as [[r2 s2] l2]; cbn in *.
    destruct Hm as [Hl1 Hs1], Hf as [Hl2 Hs2].
    split; [apply Forall_app; auto | eauto].
  - exact Hm.
Qed.

Lemma respects_if {A : Type} (b : bool) (m1 m2 : M A) :
  respects P R m1 -> respects P R m2 -> respects P R (if b then m1 else m2).
Proof. destruct b; auto. Qed.

Lemma respects_when (b : bool) (m : M unit) :
  respects P R m -> respects P R (when b m).
Proof. destruct b; cbn; auto using respects_ret. Qed.

Lemma respects_quota {A : Type} (f : Stage -> A * Stage) :
  (forall g c, P (EvQuota g c)) ->
  (forall s, R s (snd (f s))) ->
  respects P R (quota f).
Proof.
  intros HP Hf s. unfold quota.
  specialize (Hf s). destruct (f s) as [a s']; cbn in *. auto.
Qed.

Hypothesis P_quota : forall g c, P (EvQuota g c).
Hypothesis R_count : forall s c, R s (set_currentDomChangesCount c s).

Lemma R_call_acquire (w : Z) s : R s (snd (call_acquireDomChanges w s)).
Proof. rewrite call_acquireDomChanges_count. apply R_count. Qed.

Lemma respects_exec {A : Type} (p : Rendering A) : respects P R (exec p).
Proof.
  induction p as [a | w k IH | t k IH | k IH | allowed made k IH]; cbn [exec].
  - apply respects_ret.
  - apply respects_bind; [|exact IH].
    apply respects_quota; [exact P_quota|]. intro s. apply R_call_acquire.
  - apply respects_bind; [|exact IH].
    unfold quota_one, acquireDomChange.
    destruct (is_structural t).
    + apply respects_quota; [exact P_quota|]. intro s.
      pose proof (R_call_acquire 1 s) as Hs.
      destruct (call_acquireDomChanges 1 s); exact Hs.
    + intro s. cbn. auto.
  - apply respects_bind; [|exact IH].
    apply respects_quota; [exact P_quota|]. intro s.
    unfold blockChangesForAdding. apply R_call_acquire.
  - apply respects_bind; [|intros _; exact IH].
    apply respects_quota; [exact P_quota|]. intro s. apply R_count.
Qed.

Hypothesis R_nodes : forall s sc, R s (set_nodes sc s).

Lemma respects_renderNode (p : Rendering Scene) : respects P R (renderNode p).
Proof.
  unfold renderNode. apply respects_bind; [apply respects_exec|].
  intro sc. apply respects_modify. intro s. apply R_nodes.
Qed.

Hypothesis P_clip : forall clip, P (EvClipRender clip).

Lemma respects_renderClips (clips : list Clip) :
  respects P R (renderClips clips).
Proof.
  induction clips as [|clip rest IH]; cbn [renderClips].
  - apply respects_ret.
  - apply respects_bind; [apply respects_get|]. intro s0.
    apply respects_bind; [|intros _; exact IH].
    apply respects_when. apply respects_bind.
    + apply respects_tell. repeat constructor. apply P_clip.
    + intros _. apply respects_renderNode.
Qed.

Hypothesis R_queue : forall s q, R s (set_clipsToRender_ q s).
Hypothesis P_layer : P EvLayerRender.
Hypothesis P_credits : P EvCreditsRender.

Lemma respects_renderInternal : respects P R renderInternal.
Proof.
  unfold renderInternal.
  apply respects_bind; [apply respects_get|]. intro s0.
  apply respects_bind.
  { apply respects_when. apply respects_bind; [apply respects_renderClips|].
    intros _. apply respects_modify. intro s. apply R_queue. }
  intros _. apply respects_bind; [apply respects_get|]. intro s1.
  apply respects_bind.
  { apply respects_when. apply respects_bind.
    - apply respects_tell. repeat constructor. exact P_layer.
    - intros _. apply respects_renderNode. }
  intros _. apply respects_bind; [apply respects_get|]. intro s2.
  apply respects_when. apply respects_tell. repeat constructor. exact P_credits.
Qed.

End Rules.

(** ** The counter under the incremental allocator *)

Lemma quota_trace_app (cap c c1 c2 : Z) l1 l2 :
  quota_trace cap c l1 c1 -> quota_trace cap c1 l2 c2 ->
  quota_trace cap c (l1 ++ l2) c2.
Proof.
  revert c. induction l1 as [|e l1 IH]; intros c H1 H2; cbn in *.
  - subst. exact H2.
  - destruct e; eauto.
    destruct H1 as (Hc & Hle & H1). eauto.
Qed.





Section Capped.

Variable cap : Z.

Local Abbreviation within_cap := (@capped Scene Clip cap _).
Local Abbreviation stays := (@stays_in_budget Scene Clip cap _).

Lemma capped_ret {A : Type} (a : A) : within_cap (ret a).
Proof. intros s Hs. cbn. auto. Qed.

Lemma capped_get : within_cap get.
Proof. intros s Hs. cbn. auto. Qed.

Lemma capped_throw {A : Type} (e : ErrorCode) : within_cap (@throw Scene Clip A e).
Proof. intros s Hs. cbn. auto. Qed.

Lemma capped_tell l :
  net_granted l = 0 -> quota_counts l = [] -> within_cap (tell l).
Proof.
  intros _ Hq s Hs. cbn. split; [exact Hs|].
  generalize (currentDomChangesCount s). clear -Hq.
  induction l as [|e l IH]; intro c; cbn in *; [reflexivity|].
  destruct e; try (apply IH; exact Hq). discriminate.
Qed.

Lemma capped_modify (f : Stage -> Stage) :
  (forall s, acquireDomChanges (f s) = acquireDomChanges s /\
             maxDomChanges (f s) = maxDomChanges s /\
             currentDomChangesCount (f s) = currentDomChangesCount s) ->
  within_cap (modify f).
Proof.
  intros Hf s (Ha & Hm & Hc). cbn. unfold in_budget.
  destruct (Hf s) as (-> & -> & ->). auto.
Qed.

(** Sequencing, for one run: the second part need only stay in budget
    from the stage the first part left. *)
Lemma stays_bind {A B : Type} (m : M A) (f : A -> M B) s :
  stays s (m s) ->
  (forall a s1 l1, m s = (Returned a, s1, l1) -> stays s1 (f a s1)) ->
  stays s (bind m f s).
Proof.
  intros Hm Hf. unfold bind.
  destruct (m s) as [[[a|e] s1] l1] eqn:E; [|exact Hm].
  destruct Hm as (Hs1 & Ht1).
  specialize (Hf a s1 l1 eq_refl). destruct (f a s1) as [[r2 s2] l2].
  destruct Hf as (Hs2 & Ht2).
  split; [exact Hs2|]. eapply quota_trace_app; eassumption.
Qed.

Lemma capped_bind {A B : Type} (m : M A) (f : A -> M B) :
  within_cap m -> (forall a, within_cap (f a)) ->
  within_cap (bind m f).
Proof.
  intros Hm Hf s Hs. apply stays_bind; [exact (Hm s Hs)|].
  intros a s1 l1 E. apply Hf.
  specialize (Hm s Hs). rewrite E in Hm. exact (proj1 Hm).
Qed.

Lemma capped_if {A : Type} (b : bool) (m1 m2 : M A) :
  within_cap m1 -> within_cap m2 ->
  within_cap (if b then m1 else m2).
Proof. destruct b; auto. Qed.

Lemma capped_when (b : bool) (m : M unit) : within_cap m -> within_cap (when b m).
Proof. destruct b; cbn; auto using capped_ret. Qed.

(** A quota method that only moves the counter, to a value in budget. *)
Lemma stays_quota {A : Type} (f : Stage -> A * Stage) s :
  in_budget cap s ->
  (exists c, 0 <= c <= cap /\ snd (f s) = set_currentDomChangesCount c s) ->
  stays s (quota f s).
Proof.
  intros (Ha & Hm & Hc) (c & Hle & Hs). unfold quota.
  destruct (f s) as [a s']; cbn in *. subst s'. cbn.
  unfold in_budget. cbn. repeat split; auto; lia.
Qed.

(** A nonnegative request leaves the counter in budget. *)
Lemma stays_call_acquire (w : Z) s :
  in_budget cap s -> 0 <= w ->
  stays s (quota (call_acquireDomChanges w) s).
Proof.
  intros Hs Hw. apply stays_quota; [exact Hs|].
  destruct Hs as (Ha & Hm & Hc).
  unfold call_acquireDomChanges. rewrite Ha. cbn.
  eexists; split; [|reflexivity]. lia.
Qed.

(** A node that keeps to the quota on a stage in budget leaves it in
    budget, and the counter was in budget at every step. *)
Lemma exec_in_budget {A : Type} (p : Rendering A) s :
  in_budget cap s -> disciplined p s = true -> stays s (exec p s).
Proof.
  revert s.
  induction p as [a | w k IH | t k IH | k IH | allowed made k IH];
    intros s Hs Hd; cbn [exec disciplined] in *.
  - apply capped_ret. exact Hs.
  - apply andb_prop in Hd. destruct Hd as [Hw Hd].
    apply Z.leb_le in Hw.
    pose proof (stays_call_acquire w s Hs Hw) as H1.
    apply stays_bind; [exact H1|].
    intros g s1 l1 E. unfold quota in E, H1.
    destruct (call_acquireDomChanges w s) as [g' s'].
    inversion E; subst g' s' l1. apply IH; [exact (proj1 H1) | exact Hd].
  - assert (H1 : stays s (quota_one t s)).
    { unfold quota_one, acquireDomChange. destruct (is_structural t).
      - apply stays_quota; [exact Hs|].
        destruct Hs as (Ha & Hm & Hc).
        unfold call_acquireDomChanges. rewrite Ha. cbn.
        eexists; split; [|reflexivity]. lia.
      - cbn. auto. }
    apply stays_bind; [exact H1|].
    intros b s1 l1 E. unfold quota_one, quota in E, H1.
    destruct (is_structural t);
      destruct (acquireDomChange t s) as [b' s'];
      inversion E; subst b' s' l1;
      (apply IH; [exact (proj1 H1) | exact Hd]).
  - assert (H1 : stays s (quota blockChangesForAdding s)).
    { apply stays_quota; [exact Hs|].
      destruct Hs as (Ha & Hm & Hc).
      unfold blockChangesForAdding, call_acquireDomChanges. rewrite Ha. cbn.
      eexists; split; [|reflexivity].
      assert (H3 : 0 <= Z.max (maxDomChanges s - currentDomChangesCount s) 0 / 3)
        by (apply Z.div_pos; lia).
      lia. }
    apply stays_bind; [exact H1|].
    intros g s1 l1 E. unfold quota in E, H1.
    destruct (blockChangesForAdding s) as [g' s'].
    inversion E; subst g' s' l1. apply IH; [exact (proj1 H1) | exact Hd].
  - apply andb_prop in Hd. destruct Hd as [Hd Hk].
    apply andb_prop in Hd. destruct Hd as [Hle Hback].
    apply Z.leb_le in Hle. apply Z.leb_le in Hback.
    assert (H1 : stays s (quota (fun s => (tt, releaseDomChanges allowed made s)) s)).
    { apply stays_quota; [exact Hs|].
      destruct Hs as (Ha & Hm & Hc). cbn.
      eexists; split; [|reflexivity]. lia. }
    apply stays_bind; [exact H1|].
    intros u s1 l1 E. unfold quota in E, H1. cbn in E, H1.
    inversion E; subst s1 l1. apply IH; [exact (proj1 H1) | exact Hk].
Qed.

Lemma capped_renderNode (p : Rendering Scene) :
  (forall s, in_budget cap s -> disciplined p s = true) ->
  within_cap (renderNode p).
Proof.
  intros Hp s Hs. unfold renderNode.
  apply stays_bind; [apply exec_in_budget; auto|].
  intros sc s1 l1 E.
  apply capped_modify; [intro s0; auto|].
  pose proof (exec_in_budget p s Hs (Hp s Hs)) as H.
  rewrite E in H. exact (proj1 H).
Qed.

Lemma capped_renderClips (clips : list Clip) :
  disciplined_nodes cap -> within_cap (renderClips clips).
Proof.
  intros Hnodes. induction clips as [|clip rest IH]; cbn [renderClips].
  - apply capped_ret.
  - apply capped_bind; [apply capped_get|]. intro s0.
    apply capped_bind; [|intros _; exact IH].
    apply capped_when.
    apply capped_bind; [apply capped_tell; reflexivity|]. intros _.
    apply capped_renderNode. intros s Hs.
    apply (proj2 (Hnodes s (nodes s0) Hs)).
Qed.

Lemma capped_renderInternal : disciplined_nodes cap -> within_cap renderInternal.
Proof.
  intros Hnodes. unfold renderInternal.
  apply capped_bind; [apply capped_get|]. intro s0.
  apply capped_bind.
  { apply capped_when.
    apply capped_bind; [apply capped_renderClips; exact Hnodes|]. intros _.
    apply capped_modify. intro s. auto. }
  intros _. apply capped_bind; [apply capped_get|]. intro s1.
  apply capped_bind.
  { apply capped_when.
    apply capped_bind; [apply capped_tell; reflexivity|]. intros _.
    apply capped_renderNode. intros s Hs.
    apply (proj1 (Hnodes s (nodes s1) Hs)). }
  intros _. apply capped_bind; [apply capped_get|]. intro s2.
  apply capped_when. apply capped_tell; reflexivity.
Qed.

(** What follows [renderInternal] in a tick. *)
Lemma capped_tick_tail :
  within_cap
    (s <- get ;;
     when (needsAttach s)
       (tell [EvAppendChild (container_ s)] ;;
        modify (set_domParent (container_ s))) ;;
     s <- get ;;
     if isDirty s then tell [EvSetTimeout] else
     when (resizeListeners s) (tell [EvStartResizeMonitor]) ;;
     dispatchRenderEvent RENDER_FINISH ;;
     settleImages).
Proof.
  apply capped_bind; [apply capped_get|]. intro s0.
  apply capped_bind.
  { apply capped_when.
    apply capped_bind; [apply capped_tell; reflexivity|]. intros _.
    apply capped_modify. intro s. auto. }
  intros _. apply capped_bind; [apply capped_get|]. intro s1.
  apply capped_if; [apply capped_tell; reflexivity|].
  apply capped_bind; [apply capped_when; apply capped_tell; reflexivity|].
  intros _. apply capped_bind.
  { unfold dispatchRenderEvent.
    apply capped_bind; [|intros _; apply capped_tell; reflexivity].
    apply capped_modify. intro s. auto. }
  intros _. unfold settleImages.
  apply capped_bind; [apply capped_get|]. intro s2.
  apply capped_if.
  - apply capped_when.
    apply capped_bind; [apply capped_tell; reflexivity|]. intros _.
    apply capped_modify. intro s. auto.
  - unfold stageRenderedDispatcher_.
    apply capped_bind; [apply capped_get|]. intro s3.
    apply capped_when. apply capped_tell; reflexivity.
Qed.

End Capped.

(** A tick runs [renderInternal] and what follows it from the counter at
    zero under the incremental allocator. *)
Lemma tick_unfold s :
  renderAsync_ s
  = (renderInternal ;;
     s <- get ;;
     when (needsAttach s)
       (tell [EvAppendChild (container_ s)] ;;
        modify (set_domParent (container_ s))) ;;
     s <- get ;;
     if isDirty s then tell [EvSetTimeout] else
     when (resizeListeners s) (tell [EvStartResizeMonitor]) ;;
     dispatchRenderEvent RENDER_FINISH ;;
     settleImages)
      (set_acquireDomChanges Async (set_currentDomChangesCount 0 s)).
Proof.
  unfold renderAsync_. unfold bind at 1 2. cbn [modify].
  destruct (bind renderInternal _ _) as [[r s'] l]. reflexivity.
Qed.

Lemma tick_trace s :
  0 <= maxDomChanges s ->
  disciplined_nodes (maxDomChanges s) ->
  match renderAsync_ s with
  | (_, s', l) =>
      in_budget (maxDomChanges s) s' /\
      quota_trace (maxDomChanges s) 0 l (currentDomChangesCount s')
  end.
Proof.
  intros Hmax Hnodes. rewrite tick_unfold.
  refine (capped_bind (maxDomChanges s) _ _
            (capped_renderInternal (maxDomChanges s) Hnodes)
            (fun _ => capped_tick_tail (maxDomChanges s))
            (set_acquireDomChanges Async (set_currentDomChangesCount 0 s))
            _).
  unfold in_budget. cbn. repeat split; auto; lia.
Qed.


(** ** What a flush leaves alone *)

Lemma same_config_refl s : same_config s s.
Proof. repeat split. Qed.

Lemma same_config_trans s1 s2 s3 :
  same_config s1 s2 -> same_config s2 s3 -> same_config s1 s3.
Proof.
  unfold same_config. intros (A1 & A2 & A3 & A4 & A5) (B1 & B2 & B3 & B4 & B5).
  repeat split; congruence.
Qed.

Local Abbreviation no_invoke := (fun e : Effect => is_invoke e = false).

Local Abbreviation keeps_config :=
  (@respects Scene Clip no_invoke (@same_config Scene Clip) _).

Ltac cfg_step :=
  lazymatch goal with
  | |- respects _ _ (bind _ _) =>
      apply (respects_bind _ _ same_config_trans); [|intro]
  | |- respects _ _ get => apply (respects_get _ _ same_config_refl)
  | |- respects _ _ (ret _) => apply (respects_ret _ _ same_config_refl)
  | |- respects _ _ (throw _) => apply (respects_throw _ _ same_config_refl)
  | |- respects _ _ (tell _) =>
      apply (respects_tell _ _ same_config_refl); repeat constructor
  | |- respects _ _ (modify _) =>
      apply respects_modify; intro; repeat split
  | |- respects _ _ (when _ _) => apply (respects_when _ _ same_config_refl)
  | |- respects _ _ (if _ then _ else _) => apply respects_if
  | |- respects _ _ (exec _) =>
      apply (respects_exec _ _ same_config_refl same_config_trans);
      [reflexivity | intros; repeat split]
  end.

Lemma renderInternal_config :
  keeps_config (@renderInternal Scene Clip Nodes).
Proof.
  apply (respects_renderInternal _ _ same_config_refl same_config_trans);
    intros; try reflexivity; repeat split.
Qed.

(** [renderInternal] leaves the rendering flag and the installed allocator
    as they are. *)
Lemma renderInternal_flag s :
  isRendering_ (snd (fst (renderInternal s))) = isRendering_ s /\
  acquireDomChanges (snd (fst (renderInternal s))) = acquireDomChanges s.
Proof.
  refine (proj2 (respects_renderInternal (fun _ => True)
            (fun s s' => isRendering_ s' = isRendering_ s /\
                         acquireDomChanges s' = acquireDomChanges s)
            _ _ _ _ _ _ _ _ _ s)); intros; try exact I; try (split; reflexivity).
  split; [transitivity (isRendering_ s2) | transitivity (acquireDomChanges s2)];
    tauto.
Qed.

Lemma dispatchRenderEvent_config (type : EventType) :
  keeps_config (dispatchRenderEvent type).
Proof.
  unfold dispatchRenderEvent. cfg_step; [|cfg_step].
  apply respects_modify. intro s. destruct type; repeat split.
Qed.

Lemma settleImages_config : keeps_config (@settleImages Scene Clip).
Proof. unfold settleImages, stageRenderedDispatcher_. repeat cfg_step. Qed.

Lemma render_config : keeps_config (@render Scene Clip Nodes).
Proof.
  unfold render.
  cfg_step; [cfg_step|]. cfg_step; [cfg_step|].
  cfg_step; [cfg_step|]. cfg_step; [cfg_step|].
  cfg_step; [apply dispatchRenderEvent_config|].
  cfg_step; [cfg_step|]. cfg_step; [cfg_step|].
  cfg_step; [apply renderInternal_config|].
  cfg_step; [cfg_step|]. cfg_step; [repeat cfg_step|].
  cfg_step; [cfg_step|]. cfg_step; [cfg_step|].
  cfg_step; [repeat cfg_step|].
  cfg_step; [apply dispatchRenderEvent_config | apply settleImages_config].
Qed.

Lemma renderAsync_config : keeps_config (@renderAsync Scene Clip).
Proof.
  unfold renderAsync.
  cfg_step; [cfg_step|]. cfg_step; [|cfg_step].
  cfg_step; [cfg_step|].
  cfg_step; [apply dispatchRenderEvent_config | cfg_step].
Qed.

Lemma tick_config : keeps_config (@renderAsync_ Scene Clip Nodes).
Proof.
  unfold renderAsync_.
  cfg_step; [cfg_step|]. cfg_step; [cfg_step|].
  cfg_step; [apply renderInternal_config|].
  cfg_step; [cfg_step|]. cfg_step; [repeat cfg_step|].
  cfg_step; [cfg_step|]. cfg_step; [cfg_step|].
  cfg_step; [repeat cfg_step|].
  cfg_step; [apply dispatchRenderEvent_config | apply settleImages_config].
Qed.

Lemma no_invoke_not_in l (m : FlushMethod) :
  Forall no_invoke l -> ~ In (EvInvoke m) l.
Proof.
  intros Hl Hin. rewrite Forall_forall in Hl.
  specialize (Hl _ Hin). discriminate.
Qed.

(** ** Suspend and resume *)

(** The stage [resume] hands to the flush it calls. *)
Lemma resume_unfold (opt_force : option bool) s :
  let s1 := set_suspended_
              (if truthy opt_force then 0 else Z.max (suspended_ s - 1) 0) s in
  resume opt_force s
  = if (suspended_ s1 =? 0) && is_some (container_ s)
    then match (if asyncMode_ s then renderAsync else render) s1 with
         | (r, s', l) =>
             (r, s', EvInvoke (if asyncMode_ s then RenderAsync else Render) :: l)
         end
    else (Returned tt, s1, []).
Proof.
  intro s1. unfold resume. unfold bind at 1 2. cbn [modify get app].
  fold s1. change (container_ s1) with (container_ s).
  change (asyncMode_ s1) with (asyncMode_ s).
  destruct ((suspended_ s1 =? 0) && is_some (container_ s)); cbn [when];
    [|reflexivity].
  unfold invoke, bind, tell.
  destruct (asyncMode_ s).
  - destruct (renderAsync s1) as [[r s'] l]. reflexivity.
  - destruct (render s1) as [[r s'] l]. reflexivity.
Qed.

Lemma flush_keeps_config (async : bool) s :
  same_config s (snd (fst ((if async then renderAsync else render) s))) /\
  Forall no_invoke (snd ((if async then renderAsync else render) s)).
Proof.
  destruct async.
  - destruct (renderAsync_config s); auto.
  - destruct (render_config s); auto.
Qed.

Lemma run_call_suspended (c : Call) s :
  0 <= suspended_ s -> 0 <= suspended_ (snd (fst (run_call c s))).
Proof.
  intro H0. destruct c as [|f|v| | |]; cbn [run_call].
  - cbn. lia.
  - pose proof (resume_unfold f s) as E. cbn zeta in E. rewrite E.
    set (s1 := set_suspended_ _ s).
    assert (H1 : 0 <= suspended_ s1)
      by (unfold s1; cbn; destruct (truthy f); lia).
    destruct (_ && _); [|exact H1].
    destruct (flush_keeps_config (asyncMode_ s) s1) as [(Hs & _) _].
    destruct ((if asyncMode_ s then renderAsync else render) s1) as [[r s'] l].
    cbn in *. lia.
  - cbn. exact H0.
  - destruct (render_config s) as [_ (Hs & _)]. lia.
  - destruct (renderAsync_config s) as [_ (Hs & _)]. lia.
  - destruct (tick_config s) as [_ (Hs & _)]. lia.
Qed.

(** C1: [suspend] adds one to the counter and does nothing else.
    [resume] puts the counter at [max (counter - 1) 0], or at [0] when
    forced; when that is zero and a container is attached it runs a flush
    on the stage with the new counter, [renderAsync] in async mode and
    [render] otherwise, and ends as that flush ends; in every other case
    it returns having changed the counter only.  The counter never becomes
    negative, whatever is called on the stage. *)
Theorem suspend_resume_counter s :
  suspend s = (Returned tt, set_suspended_ (suspended_ s + 1) s, []) /\
  (forall opt_force,
     let counter := if truthy opt_force then 0 else Z.max (suspended_ s - 1) 0 in
     let resumed := set_suspended_ counter s in
     0 <= counter /\
     resume opt_force s
     = (if (counter =? 0) && is_some (container_ s)
        then match (if asyncMode_ s then renderAsync else render) resumed with
             | (r, s', l) =>
                 (r, s',
                  EvInvoke (if asyncMode_ s then RenderAsync else Render) :: l)
             end
        else (Returned tt, resumed, [])) /\
     match resume opt_force s with
     | (_, s', l) =>
         suspended_ s' = counter /\
         (forall m, In (EvInvoke m) l <->
                    counter = 0 /\ container_ s <> None /\
                    m = if asyncMode_ s then RenderAsync else Render)
     end) /\
  (0 <= suspended_ s ->
   forall calls, 0 <= suspended_ (fst (run_calls calls s))).
Proof.
  split; [reflexivity|]. split.
  - intro f. cbv zeta.
    pose proof (resume_unfold f s) as E. cbn zeta in E.
    set (v := if truthy f then 0 else Z.max (suspended_ s - 1) 0) in *.
    change (suspended_ (set_suspended_ v s)) with v in E.
    assert (Hv : 0 <= v) by (unfold v; destruct (truthy f); lia).
    split; [exact Hv|]. split; [exact E|].
    rewrite E.
    destruct (Z.eqb_spec v 0) as [Hz|Hnz]; cbn [andb].
    + destruct (container_ s) as [c|] eqn:Hc; cbn [is_some].
      * destruct (flush_keeps_config (asyncMode_ s) (set_suspended_ v s))
          as [(Hs & _) Hl].
        destruct ((if asyncMode_ s then renderAsync else render)
                    (set_suspended_ v s)) as [[r s'] l].
        cbn in Hs, Hl. cbn [fst snd].
        split; [exact Hs|].
        intro m. split.
        -- intros [Hm | Hin].
           ++ inversion Hm. repeat split; [lia | discriminate].
           ++ exfalso. exact (no_invoke_not_in _ _ Hl Hin).
        -- intros (_ & _ & ->). left. reflexivity.
      * cbn. split; [reflexivity|].
        intro m. split; [intros [] | intros (_ & Hn & _); congruence].
    + cbn. split; [reflexivity|].
      intro m. split; [intros [] | intros (Hz & _); congruence].
  - intros H0 calls. revert s H0.
    induction calls as [|c rest IH]; intros s H0; cbn [run_calls].
    + exact H0.
    + pose proof (run_call_suspended c s H0) as H1.
      destruct (run_call c s) as [[r s1] l1]. cbn in H1.
      specialize (IH s1 H1). destruct (run_calls rest s1) as [s2 l2].
      exact IH.
Qed.

(** ** The re-entrancy guard and the missing container *)

Lemma guard_returns_at_once s :
  isRendering_ s = true ->
  render s = (Returned tt, s, []) /\ renderAsync s = (Returned tt, s, []).
Proof.
  intro H. unfold render, renderAsync, bind, get. rewrite H. split; reflexivity.
Qed.

(** C7: while a flush is in progress, [render] and [renderAsync] return at
    once: the stage is the same afterwards, field for field, and nothing
    was dispatched, scheduled or rendered. *)
Theorem reentrant_flush_is_noop s :
  isRendering s = true ->
  render s = (Returned tt, s, []) /\ renderAsync s = (Returned tt, s, []).
Proof.
  unfold isRendering. apply guard_returns_at_once.
Qed.

(** C6: with no container attached and no flush in progress, [render] and
    [renderAsync] both throw CONTAINER_SHOULD_BE_DEFINED, and whatever the
    caller had planned after the call is skipped: the caller ends with the
    same exception. *)
Theorem flush_without_container_throws s :
  isRendering s = false ->
  container_ s = None ->
  fst (fst (render s)) = Threw CONTAINER_SHOULD_BE_DEFINED /\
  fst (fst (renderAsync s)) = Threw CONTAINER_SHOULD_BE_DEFINED /\
  (forall (B : Type) (k : unit -> M B),
     (render ;; k tt) s
     = (Threw CONTAINER_SHOULD_BE_DEFINED, snd (fst (render s)), snd (render s)) /\
     (renderAsync ;; k tt) s
     = (Threw CONTAINER_SHOULD_BE_DEFINED, snd (fst (renderAsync s)),
        snd (renderAsync s))).
Proof.
  unfold isRendering. intros Hr Hc.
  assert (E1 : render s
               = (Threw CONTAINER_SHOULD_BE_DEFINED,
                  set_isRendering_ true
                    (set_acquireDomChanges Sync (set_currentDomChangesCount 0 s)),
                  [EvDispatch RENDER_START])).
  { unfold render, bind, get. rewrite Hr. cbn. rewrite Hc. reflexivity. }
  assert (E2 : renderAsync s = (Threw CONTAINER_SHOULD_BE_DEFINED, s, [])).
  { unfold renderAsync, bind, get. rewrite Hr, Hc. reflexivity. }
  split; [rewrite E1; reflexivity|]. split; [rewrite E2; reflexivity|].
  intros B k. unfold bind. rewrite E1, E2. split; reflexivity.
Qed.

(** C10: with no container attached (and no flush in progress, so that the
    call reaches the check), [render] dispatches RENDER_START, which raises
    the rendering flag, and throws with the flag still raised; the stage is
    not the one it was, [isRendering] answers true, and from then on every
    [render] and [renderAsync] is ignored. *)
Theorem render_without_container_sticks s :
  container_ s = None ->
  isRendering s = false ->
  let s' := set_isRendering_ true
              (set_acquireDomChanges Sync (set_currentDomChangesCount 0 s)) in
  render s = (Threw CONTAINER_SHOULD_BE_DEFINED, s', [EvDispatch RENDER_START]) /\
  isRendering s' = true /\
  s' <> s /\
  (forall calls,
     Forall (fun c => c = CallRender \/ c = CallRenderAsync) calls ->
     run_calls calls s' = (s', [])).
Proof.
  unfold isRendering. intros Hc Hr. cbv zeta.
  set (s' := set_isRendering_ true _).
  split.
  { unfold render, bind, get. rewrite Hr. cbn. rewrite Hc. reflexivity. }
  split; [reflexivity|]. split.
  { intro E. apply (f_equal isRendering_) in E. cbn in E. congruence. }
  intros calls Hcalls. induction Hcalls as [|c rest Hcall _ IH]; [reflexivity|].
  cbn [run_calls].
  destruct (guard_returns_at_once s' eq_refl) as [E1 E2].
  destruct Hcall as [-> | ->]; cbn [run_call].
  - rewrite E1, IH. reflexivity.
  - rewrite E2, IH. reflexivity.
Qed.

(** ** The synchronous flush *)

Lemma exec_returns {A : Type} (p : Rendering A) s :
  exists a, fst (fst (exec p s)) = Returned a.
Proof.
  revert s.
  induction p as [a | w k IH | t k IH | k IH | allowed made k IH];
    intro s; cbn [exec].
  - eexists; reflexivity.
  - unfold bind, quota. destruct (call_acquireDomChanges w s) as [g s1].
    destruct (IH g s1) as [a Ha].
    destruct (exec (k g) s1) as [[r s2] l2]. eauto.
  - unfold bind, quota_one, quota. destruct (is_structural t);
      destruct (acquireDomChange t s) as [b s1];
      destruct (IH b s1) as [a Ha];
      destruct (exec (k b) s1) as [[r s2] l2]; eauto.
  - unfold bind, quota. destruct (blockChangesForAdding s) as [g s1].
    destruct (IH g s1) as [a Ha].
    destruct (exec (k g) s1) as [[r s2] l2]. eauto.
  - unfold bind, quota.
    destruct (IH (releaseDomChanges allowed made s)) as [a Ha].
    destruct (exec k _) as [[r s2] l2]. eauto.
Qed.

Lemma renderNode_returns (p : Rendering Scene) s :
  fst (fst (renderNode p s)) = Returned tt.
Proof.
  unfold renderNode, bind. destruct (exec_returns p s) as [a Ha].
  destruct (exec p s) as [[r s1] l1]. cbn in Ha. subst r. reflexivity.
Qed.

Lemma renderClips_returns (clips : list Clip) s :
  fst (fst (renderClips clips s)) = Returned tt.
Proof.
  revert s. induction clips as [|clip rest IH]; intro s; [reflexivity|].
  cbn [renderClips]. unfold bind at 1 2. cbn [get].
  destruct (clip_isDirty clip (nodes s)); cbn [when].
  - unfold bind at 1. cbn [tell].
    pose proof (renderNode_returns (clip_render clip (nodes s)) s) as Hn.
    destruct (renderNode _ s) as [[r s1] l1]. cbn in Hn. subst r.
    specialize (IH s1). destruct (renderClips rest s1) as [[r s2] l2].
    exact IH.
  - cbn [ret]. specialize (IH s).
    destruct (renderClips rest s) as [[r s2] l2]. exact IH.
Qed.

Lemma renderNode_queue (p : Rendering Scene) s :
  clipsToRender_ (snd (fst (renderNode p s))) = clipsToRender_ s.
Proof.
  refine (proj2 (respects_renderNode (fun _ => True)
            (fun s s' => clipsToRender_ s' = clipsToRender_ s)
            _ _ _ _ _ p s)); intros; try exact I; try reflexivity.
  congruence.
Qed.

(** [renderInternal] returns, and the queue of clips is empty after it. *)
Lemma renderInternal_returns s :
  exists s' l,
    renderInternal s = (Returned tt, s', l) /\ clipsToRender_ s' = [].
Proof.
  unfold renderInternal. unfold bind at 1 2. cbn [get].
  assert (H1 : exists s1 l1,
             when (negb (Nat.eqb (length (clipsToRender_ s)) 0))
               (renderClips (clipsToRender_ s) ;; modify (set_clipsToRender_ [])) s
             = (Returned tt, s1, l1) /\ clipsToRender_ s1 = []).
  { destruct (clipsToRender_ s) as [|c q] eqn:Hq; cbn [length Nat.eqb negb when].
    - exists s, []. split; [reflexivity | exact Hq].
    - unfold bind.
      pose proof (renderClips_returns (c :: q) s) as Hr.
      destruct (renderClips (c :: q) s) as [[r s1] l1]. cbn in Hr. subst r.
      cbn. eauto. }
  destruct H1 as (s1 & l1 & -> & Hq1).
  unfold bind at 1 2. cbn [get].
  assert (H2 : exists s2 l2,
             when (layer_isDirty (nodes s1))
               (tell [EvLayerRender] ;; renderNode (layer_render (nodes s1))) s1
             = (Returned tt, s2, l2) /\ clipsToRender_ s2 = []).
  { destruct (layer_isDirty (nodes s1)); cbn [when].
    - unfold bind at 1. cbn [tell].
      pose proof (renderNode_returns (layer_render (nodes s1)) s1) as Hr.
      pose proof (renderNode_queue (layer_render (nodes s1)) s1) as Hc.
      destruct (renderNode _ s1) as [[r s2] l2]. cbn in Hr, Hc. subst r.
      exists s2, (EvLayerRender :: l2). split; [reflexivity | congruence].
    - exists s1, []. split; [reflexivity | exact Hq1]. }
  destruct H2 as (s2 & l2 & -> & Hq2).
  unfold bind. cbn [get]. destruct (credits s2); cbn; eauto.
Qed.

(** On a stage with nothing queued, a clean root layer and no [credits],
    [renderInternal] does nothing at all. *)
Lemma renderInternal_clean s :
  clipsToRender_ s = [] ->
  layer_isDirty (nodes s) = false ->
  credits s = false ->
  renderInternal s = (Returned tt, s, []).
Proof.
  intros Hq Hd Hc. unfold renderInternal, bind, get.
  rewrite Hq. cbn. rewrite Hd. cbn. rewrite Hc. reflexivity.
Qed.

(** What [render] does once past the guard and the container check, in
    terms of the stage [renderInternal] left. *)
Lemma render_past_checks s :
  isRendering_ s = false ->
  container_ s <> None ->
  let s0 := set_isRendering_ true
              (set_acquireDomChanges Sync (set_currentDomChangesCount 0 s)) in
  let s2 := snd (fst (renderInternal s0)) in
  exists r s' l,
    render s = (r, s', l) /\
    nodes s' = nodes s2 /\
    same_config s s' /\
    acquireDomChanges s' = Sync /\
    if isDirty s2
    then r = Threw DIRTY_AFTER_SYNC_RENDER /\ isRendering_ s' = true
    else r = Returned tt /\
         clipsToRender_ s' = [] /\
         isRendering_ s' = false /\
         needsAttach s' = false /\
         negb (renderedResizeMonitor_ s') && resizeListeners s' = false.
Proof.
  intros Hr Hc. cbv zeta.
  set (s0 := set_isRendering_ true _).
  destruct (renderInternal_returns s0) as (s2 & l2 & Hret & Hq).
  destruct (renderInternal_config s0) as [_ Hcfg].
  rewrite Hret in Hcfg |- *. cbn [fst snd] in Hcfg |- *.
  assert (Hcfg' : same_config s s2) by exact Hcfg.
  destruct (container_ s) as [c|] eqn:Hcs; [clear Hc|congruence].
  assert (Hc2 : container_ s2 = Some c).
  { destruct Hcfg as (_ & Hc2 & _). rewrite Hc2. exact Hcs. }
  assert (Hatt : needsAttach (set_domParent (container_ s2) s2) = false).
  { unfold needsAttach. cbn. rewrite Hc2. cbn.
    rewrite Nat.eqb_refl. reflexivity. }
  unfold render, bind, get. rewrite Hr.
  cbn -[renderInternal needsAttach isDirty]. rewrite Hcs.
  cbn -[renderInternal needsAttach isDirty].
  match goal with |- context [renderInternal ?x] => change x with s0 end.
  rewrite Hret.
  pose proof (renderInternal_flag s0) as [Hflag Halloc].
  rewrite Hret in Hflag, Halloc. cbn in Hflag, Halloc.
  destruct Hcfg' as (C1 & C2 & C3 & C4 & C5).
  unfold isDirty.
  destruct (needsAttach s2) eqn:Hna; cbn -[needsAttach];
    destruct (layer_isDirty (nodes s2)) eqn:Hd; cbn -[needsAttach];
    try (eexists _, _, _; split; [reflexivity|];
         repeat split; cbn; auto; fail);
    destruct (renderedResizeMonitor_ s2) eqn:Hm;
    destruct (resizeListeners s2) eqn:Hl;
    cbn -[needsAttach];
    destruct (imageLoader s2), (isImageLoading s2);
    cbn -[needsAttach];
    try destruct (imageLoadingListener_ s2);
    cbn -[needsAttach];
    (eexists _, _, _; split; [reflexivity|];
     repeat split; cbn -[needsAttach]; auto;
     try (rewrite Hm, Hl; reflexivity)).
Qed.

(** A [render] on a stage that an earlier [render] left clean. *)
Lemma render_clean s :
  isRendering_ s = false ->
  container_ s <> None ->
  clipsToRender_ s = [] ->
  isDirty s = false ->
  credits s = false ->
  needsAttach s = false ->
  negb (renderedResizeMonitor_ s) && resizeListeners s = false ->
  let s0 := set_isRendering_ true
              (set_acquireDomChanges Sync (set_currentDomChangesCount 0 s)) in
  renderInternal s0 = (Returned tt, s0, []) /\
  exists s' l,
    render s = (Returned tt, s', l) /\
    backend_ops l = [] /\
    currentDomChangesCount s' = 0.
Proof.
  intros Hr Hc Hq Hd Hcr Hna Hm. cbv zeta.
  set (s0 := set_isRendering_ true _).
  assert (Hret : renderInternal s0 = (Returned tt, s0, []))
    by (apply renderInternal_clean; assumption).
  split; [exact Hret|].
  destruct (container_ s) as [c|] eqn:Hcs; [clear Hc|congruence].
  unfold render, bind, get. rewrite Hr.
  cbn -[renderInternal needsAttach isDirty]. rewrite Hcs.
  cbn -[renderInternal needsAttach isDirty].
  match goal with |- context [renderInternal ?x] => change x with s0 end.
  rewrite Hret.
  change (needsAttach s0) with (needsAttach s). rewrite Hna.
  cbn -[needsAttach isDirty].
  change (isDirty s0) with (isDirty s). rewrite Hd.
  cbn. rewrite Hm. cbn.
  destruct (imageLoader s), (isImageLoading s); cbn;
    try destruct (imageLoadingListener_ s); cbn;
    eexists _, _; repeat split.
Qed.

(** C5, as the code has it: a [render] that starts while no flush is in
    progress and returns normally leaves [isDirty] false; when the root
    layer is still dirty after [renderInternal] has run under the
    synchronous allocator, [render] throws DIRTY_AFTER_SYNC_RENDER, and
    otherwise it returns. *)
Theorem render_drains_or_throws s :
  isRendering s = false ->
  (forall s' l, render s = (Returned tt, s', l) -> isDirty s' = false) /\
  (container_ s <> None ->
   let flushed :=
     snd (fst (renderInternal
                 (set_isRendering_ true
                    (set_acquireDomChanges Sync
                       (set_currentDomChangesCount 0 s))))) in
   (isDirty flushed = true ->
    fst (fst (render s)) = Threw DIRTY_AFTER_SYNC_RENDER) /\
   (isDirty flushed = false ->
    fst (fst (render s)) = Returned tt /\
    isDirty (snd (fst (render s))) = false)).
Proof.
  unfold isRendering. intro Hr.
  assert (Hmain : container_ s <> None ->
    exists r s' l, render s = (r, s', l) /\
      let flushed :=
        snd (fst (renderInternal
                    (set_isRendering_ true
                       (set_acquireDomChanges Sync
                          (set_currentDomChangesCount 0 s))))) in
      isDirty s' = isDirty flushed /\
      r = if isDirty flushed then Threw DIRTY_AFTER_SYNC_RENDER
          else Returned tt).
  { intro Hc. destruct (render_past_checks s Hr Hc) as (r & s' & l & E & Hn & _ & _ & H).
    exists r, s', l. split; [exact E|]. cbv zeta. unfold isDirty at 1.
    rewrite Hn. split; [reflexivity|].
    destruct (isDirty _); destruct H as [-> _]; reflexivity. }
  split.
  - intros s' l E.
    destruct (container_ s) as [c|] eqn:Hc.
    + destruct Hmain as (r & s1 & l1 & E1 & Hd & Hres); [discriminate|].
      rewrite E in E1. inversion E1; subst r s1 l1. clear E1.
      cbv zeta in Hd. rewrite Hd.
      match goal with
      | H : Returned tt = (if ?b then _ else _) |- _ =>
          destruct b; [discriminate H | reflexivity]
      end.
    + unfold render, bind, get in E. rewrite Hr in E. cbn in E.
      rewrite Hc in E. discriminate.
  - intro Hc. destruct (Hmain Hc) as (r & s1 & l1 & E1 & Hd & Hres).
    cbv zeta in *. rewrite E1. cbn [fst snd].
    split; intro H; rewrite H in Hres; subst r; [reflexivity|].
    split; [reflexivity | congruence].
Qed.

(** C8: without the optional [credits] member, a [render] that follows a
    [render] directly performs no backend operation and consumes no quota;
    when the first call flushed and returned, it left the root layer clean
    and the queue of clips empty, and [renderInternal] of the second call
    changes nothing. *)
Theorem second_render_is_idle s :
  credits s = false ->
  match render s with
  | (r1, s1, _) =>
      match render s1 with
      | (_, _, l2) => backend_ops l2 = []
      end /\
      (isRendering s = false -> r1 = Returned tt ->
       isDirty s1 = false /\
       clipsToRender_ s1 = [] /\
       let s0 := set_isRendering_ true
                   (set_acquireDomChanges Sync
                      (set_currentDomChangesCount 0 s1)) in
       renderInternal s0 = (Returned tt, s0, []) /\
       fst (fst (render s1)) = Returned tt /\
       currentDomChangesCount (snd (fst (render s1))) = 0)
  end.
Proof.
  unfold isRendering. intro Hcr.
  destruct (isRendering_ s) eqn:Hr.
  { destruct (guard_returns_at_once s Hr) as [E _]. rewrite E, E.
    split; [reflexivity | discriminate]. }
  destruct (container_ s) as [c|] eqn:Hc.
  - assert (Hc' : container_ s <> None) by congruence.
    destruct (render_past_checks s Hr Hc') as (r & s1 & l & E & Hn & Hcfg & _ & H).
    cbv zeta in H, Hn. rewrite E.
    destruct (isDirty _) eqn:Hd.
    + destruct H as [-> Hflag].
      destruct (guard_returns_at_once s1 Hflag) as [E1 _]. rewrite E1.
      split; [reflexivity | discriminate].
    + destruct H as (-> & Hq & Hflag & Hna & Hm).
      assert (Hd1 : isDirty s1 = false) by (unfold isDirty; rewrite Hn; exact Hd).
      destruct Hcfg as (_ & Hc1 & _ & _ & Hcr1).
      destruct (render_clean s1) as (Hri & s2 & l2 & E2 & Hb & Hcount);
        try assumption; try congruence.
      rewrite E2. split; [exact Hb|]. intros _ _. cbv zeta. auto.
  - assert (E : render s
               = (Threw CONTAINER_SHOULD_BE_DEFINED,
                  set_isRendering_ true
                    (set_acquireDomChanges Sync (set_currentDomChangesCount 0 s)),
                  [EvDispatch RENDER_START])).
    { unfold render, bind, get. rewrite Hr. cbn. rewrite Hc. reflexivity. }
    rewrite E.
    destruct (guard_returns_at_once
                (set_isRendering_ true
                   (set_acquireDomChanges Sync (set_currentDomChangesCount 0 s)))
                eq_refl) as [E1 _].
    rewrite E1. split; [reflexivity | discriminate].
Qed.

(** ** The counter whenever the incremental allocator is installed *)

Lemma render_installs_sync s :
  snd (fst (render s)) = s \/ acquireDomChanges (snd (fst (render s))) = Sync.
Proof.
  destruct (isRendering_ s) eqn:Hr.
  { destruct (guard_returns_at_once s Hr) as [E _]. rewrite E. left. reflexivity. }
  right. destruct (container_ s) as [c|] eqn:Hc.
  - assert (Hc' : container_ s <> None) by congruence.
    destruct (render_past_checks s Hr Hc') as (r & s' & l & E & _ & _ & Ha & _).
    rewrite E. exact Ha.
  - unfold render, bind, get. rewrite Hr. cbn. rewrite Hc. reflexivity.
Qed.

Lemma renderAsync_flag_only s :
  snd (fst (renderAsync s)) = s \/
  snd (fst (renderAsync s)) = set_isRendering_ true s.
Proof.
  unfold renderAsync, bind, get.
  destruct (isRendering_ s); cbn; [left; reflexivity|].
  destruct (container_ s); cbn; [right | left]; reflexivity.
Qed.

(** Over any sequence of calls, on a stage with a nonnegative maximum and
    nodes that keep to the quota: whenever the incremental allocator is the
    installed one, the counter has not passed the maximum. *)
Lemma async_counter_invariant (calls : list Call) s :
  disciplined_nodes (maxDomChanges s) ->
  0 <= maxDomChanges s ->
  (acquireDomChanges s = Async ->
   currentDomChangesCount s <= maxDomChanges s) ->
  let s' := fst (run_calls calls s) in
  maxDomChanges s' = maxDomChanges s /\
  (acquireDomChanges s' = Async ->
   currentDomChangesCount s' <= maxDomChanges s').
Proof.
  cbv zeta. revert s.
  assert (Hflush : forall (async : bool) s,
            (acquireDomChanges s = Async ->
             currentDomChangesCount s <= maxDomChanges s) ->
            let s' := snd (fst ((if async then renderAsync else render) s)) in
            maxDomChanges s' = maxDomChanges s /\
            (acquireDomChanges s' = Async ->
             currentDomChangesCount s' <= maxDomChanges s')).
  { intros async s Hinv. cbv zeta.
    destruct (flush_keeps_config async s) as [(_ & _ & _ & Hm & _) _].
    split; [exact Hm|]. destruct async.
    - destruct (renderAsync_flag_only s) as [-> | ->]; exact Hinv.
    - destruct (render_installs_sync s) as [E | E].
      + rewrite E. exact Hinv.
      + intro Ha. congruence. }
  induction calls as [|c rest IH]; intros s Hnodes Hmax Hinv; cbn [run_calls].
  - cbn. auto.
  - assert (Hstep : maxDomChanges (snd (fst (run_call c s))) = maxDomChanges s /\
                    (acquireDomChanges (snd (fst (run_call c s))) = Async ->
                     currentDomChangesCount (snd (fst (run_call c s)))
                     <= maxDomChanges (snd (fst (run_call c s))))).
    { destruct c as [|f|v| | |]; cbn [run_call].
      - cbn. auto.
      - pose proof (resume_unfold f s) as E. cbn zeta in E. rewrite E.
        set (s1 := set_suspended_ _ s).
        destruct (_ && _); [|cbn; auto].
        pose proof (Hflush (asyncMode_ s) s1 Hinv) as H. cbv zeta in H.
        destruct ((if asyncMode_ s then renderAsync else render) s1)
          as [[r s'] l]. exact H.
      - cbn. auto.
      - exact (Hflush false s Hinv).
      - exact (Hflush true s Hinv).
      - pose proof (tick_trace s Hmax Hnodes) as H.
        destruct (renderAsync_ s) as [[r s'] l]. cbn [fst snd].
        destruct H as ((_ & Hm & Hc) & _). split; [exact Hm|]. intros _. lia. }
    destruct (run_call c s) as [[r s1] l1]. cbn [fst snd] in Hstep.
    destruct Hstep as [Hmax1 Hinv1].
    assert (Hnodes1 : disciplined_nodes (maxDomChanges s1))
      by (rewrite Hmax1; exact Hnodes).
    specialize (IH s1 Hnodes1 ltac:(lia) Hinv1).
    destruct (run_calls rest s1) as [s2 l2].
    cbn [fst] in *. destruct IH as [IH1 IH2]. split; [lia | exact IH2].
Qed.

End StageFacts.

(** * The properties on the small scene *)


(** One tick with a budget of two: the clip takes one unit, the layer the
    other, the scene stays dirty and the next tick is scheduled. *)
Example tick_on_a_budget_of_two :
  let s := Demo.stage (Some 7%nat) true 2 [tt] (Demo.mkScene 3 true) in
  quota_counts (snd (renderAsync_ s)) = [1; 1; 2; 2] /\
  nodes (snd (fst (renderAsync_ s))) = Demo.mkScene 2 false /\
  last (snd (renderAsync_ s)) EvLayerRender = EvSetTimeout.
Proof. vm_compute. repeat split. Qed.

(** [resume] on an attached, clean stage calls [render], which attaches
    the root element and reports start and finish. *)
Example resume_flushes_at_once :
  snd (resume None (Demo.stage (Some 7%nat) false 500 [] (Demo.mkScene 0 false)))
  = [EvInvoke Render; EvDispatch RENDER_START;
     EvAppendChild (Some 7%nat); EvSetStyle; EvAddClass;
     EvDispatch RENDER_FINISH; EvDispatch STAGE_RENDERED].
Proof. vm_compute. reflexivity. Qed.

(** Suspended once, resumed, forced and ticked, the counter of a stage that
    started at zero is still not negative. *)
Lemma suspend_resume_counter_witness :
  let s := Demo.stage (Some 7%nat) false 500 [] (Demo.mkScene 3 false) in
  0 <= suspended_ s /\
  0 <= suspended_
         (fst (run_calls [CallSuspend; CallResume None; CallResume (Some true);
                          CallTick] s)).
Proof.
  cbv zeta.
  split; [cbn; lia|].
  apply (suspend_resume_counter
           (Demo.stage (Some 7%nat) false 500 [] (Demo.mkScene 3 false))).
  cbn. lia.
Defined.



(** What that tick records: the counter goes to 3, to 8, and stays at 8. *)
Example tick_of_a_reserving_layer :
  let s := Reserving.stage 9 (Reserving.mkScene 5) in
  quota_counts (snd (renderAsync_ (Nodes := Reserving.nodes) s)) = [3; 8; 8] /\
  quota_grants (snd (renderAsync_ (Nodes := Reserving.nodes) s)) = [3; 5; 0] /\
  nodes (snd (fst (renderAsync_ (Nodes := Reserving.nodes) s)))
  = Reserving.mkScene 0.
Proof. vm_compute. repeat split. Qed.

(** C3 as stated fails: the counter is at 503 with a maximum of 500, five
    units are wanted, and the incremental allocator returns -3. *)
Lemma acquireDomChangesAsync_grants_negative :
  let s := Demo.ticking 503 500 (Demo.mkScene 5 false) in
  0 <= 5 /\
  fst (acquireDomChangesAsync_ 5 s) = -3 /\
  currentDomChangesCount (snd (acquireDomChangesAsync_ 5 s)) = 500.
Proof. vm_compute. repeat split; discriminate. Qed.

(** Two units left, five wanted: two granted. *)
Lemma acquireDomChanges_contract_witness :
  let s := Demo.ticking 498 500 (Demo.mkScene 5 false) in
  0 <= 5 /\
  (let (granted, s') := acquireDomChangesAsync_ 5 s in
   granted = Z.min (maxDomChanges s - currentDomChangesCount s) 5 /\
   granted <= 5 /\
   (0 <= granted <-> currentDomChangesCount s <= maxDomChanges s) /\
   (currentDomChangesCount s <= maxDomChanges s -> 0 <= granted <= 5) /\
   currentDomChangesCount s' = currentDomChangesCount s + granted /\
   s' = set_currentDomChangesCount (currentDomChangesCount s + granted) s).
Proof.
  cbv zeta. split; [lia|].
  exact (proj1 (acquireDomChanges_contract 5
                  (Demo.ticking 498 500 (Demo.mkScene 5 false))
                  ltac:(lia))).
Defined.

(** An element creation on an exhausted budget: refused, nothing consumed. *)
Lemma acquireDomChange_budget_witness :
  let s := Demo.ticking 500 500 (Demo.mkScene 5 false) in
  In ELEMENT_CREATE [ELEMENT_CREATE; ELEMENT_ADD; ELEMENT_REMOVE] /\
  acquireDomChanges s = Async /\
  currentDomChangesCount s <= maxDomChanges s /\
  acquireDomChange ELEMENT_CREATE s = (false, s).
Proof.
  cbv zeta.
  split; [left; reflexivity|]. split; [reflexivity|]. split; [cbn; lia|].
  pose proof (proj2 (acquireDomChange_budget ELEMENT_CREATE
                       (Demo.ticking 500 500 (Demo.mkScene 5 false)))
                (or_introl eq_refl)) as H.
  destruct (acquireDomChange ELEMENT_CREATE _) as [ok s'].
  destruct H as (_ & _ & H).
  destruct (H eq_refl ltac:(cbn; lia)) as [-> ->]. reflexivity.
Defined.

(** C5 as stated fails: [renderAsync] has announced a flush, the tick has
    not run yet, and a [render] in between returns normally on a stage that
    is still dirty. *)
Lemma render_returns_dirty :
  let s0 := Demo.stage (Some 7%nat) false 500 [] (Demo.mkScene 3 false) in
  let s1 := snd (fst (renderAsync s0)) in
  fst (fst (render s1)) = Returned tt /\
  isDirty (snd (fst (render s1))) = true.
Proof. vm_compute. split; reflexivity. Qed.

(** C8 as stated fails on a stage that has the optional [credits] member:
    the first [render] flushes and returns, and the second one renders the
    credits again. *)
Lemma second_render_renders_credits :
  let s := mkStage 0 (Some 7%nat) false false 0 500 Sync ([] : list Demo.Clip)
             false false true None false false false (Demo.mkScene 3 false) in
  credits s = true /\
  fst (fst (render s)) = Returned tt /\
  backend_ops (snd (render (snd (fst (render s))))) = [EvCreditsRender].
Proof. vm_compute. repeat split. Qed.

(** A synchronous flush of three pending elements drains the scene. *)
Lemma render_drains_or_throws_witness :
  let s := Demo.stage (Some 7%nat) false 500 [tt] (Demo.mkScene 3 true) in
  isRendering s = false /\
  container_ s <> None /\
  fst (fst (render s)) = Returned tt /\
  isDirty (snd (fst (render s))) = false.
Proof.
  cbv zeta.
  split; [reflexivity|]. split; [discriminate|].
  apply (proj2 (render_drains_or_throws
                  (Demo.stage (Some 7%nat) false 500 [tt] (Demo.mkScene 3 true))
                  eq_refl)).
  - discriminate.
  - vm_compute. reflexivity.
Defined.

(** A detached stage refuses both flushes. *)
Lemma flush_without_container_throws_witness :
  let s := Demo.stage None false 500 [] (Demo.mkScene 3 false) in
  isRendering s = false /\
  container_ s = None /\
  fst (fst (render s)) = Threw CONTAINER_SHOULD_BE_DEFINED /\
  fst (fst (renderAsync s)) = Threw CONTAINER_SHOULD_BE_DEFINED.
Proof.
  cbv zeta.
  split; [reflexivity|]. split; [reflexivity|].
  destruct (flush_without_container_throws
              (Demo.stage None false 500 [] (Demo.mkScene 3 false))
              eq_refl eq_refl) as (H1 & H2 & _).
  split; assumption.
Defined.

(** A stage in the middle of a tick ignores both flushes. *)
Lemma reentrant_flush_is_noop_witness :
  let s := Demo.ticking 2 500 (Demo.mkScene 3 false) in
  isRendering s = true /\
  render s = (Returned tt, s, []) /\
  renderAsync s = (Returned tt, s, []).
Proof.
  cbv zeta.
  split; [reflexivity|].
  apply (reentrant_flush_is_noop (Demo.ticking 2 500 (Demo.mkScene 3 false))).
  reflexivity.
Defined.

(** Rendering twice in a row: the second call has nothing to do. *)
Lemma second_render_is_idle_witness :
  let s := Demo.stage (Some 7%nat) false 500 [tt] (Demo.mkScene 3 true) in
  credits s = false /\
  backend_ops (snd (render (snd (fst (render s))))) = [].
Proof.
  cbv zeta.
  split; [reflexivity|].
  pose proof (second_render_is_idle
                (Demo.stage (Some 7%nat) false 500 [tt] (Demo.mkScene 3 true))
                eq_refl) as H.
  destruct (render (Demo.stage _ _ _ _ _)) as [[r1 s1] l1].
  destruct H as [H _]. cbn [fst snd].
  destruct (render s1) as [[r2 s2] l2]. exact H.
Defined.

(** After the failed [render] of a detached stage, three more flush
    requests change nothing. *)
Lemma render_without_container_sticks_witness :
  let s := Demo.stage None false 500 [] (Demo.mkScene 3 false) in
  let s' := set_isRendering_ true
              (set_acquireDomChanges Sync (set_currentDomChangesCount 0 s)) in
  container_ s = None /\
  isRendering s = false /\
  render s = (Threw CONTAINER_SHOULD_BE_DEFINED, s', [EvDispatch RENDER_START]) /\
  run_calls [CallRender; CallRenderAsync; CallRender] s' = (s', []).
Proof.
  cbv zeta.
  split; [reflexivity|]. split; [reflexivity|].
  destruct (render_without_container_sticks
              (Demo.stage None false 500 [] (Demo.mkScene 3 false))
              eq_refl eq_refl) as (H1 & _ & _ & H2).
  split; [exact H1|].
  apply H2.
  constructor; [left; reflexivity|].
  constructor; [right; reflexivity|].
  constructor; [left; reflexivity|].
  constructor.
Defined.

(** * Further properties of the stage *)

Section FlushShape.

Context {Scene Clip : Type} `{Nodes : SceneNodes Scene Clip}.

Local Abbreviation Stage := (Stage Scene Clip).
Local Abbreviation Effect := (Effect Clip).

Implicit Types (s : Stage) (l : list Effect).

Lemma flush_frame_refl s : flush_frame s s.
Proof. destruct s; reflexivity. Qed.

Lemma flush_frame_trans s1 s2 s3 :
  flush_frame s1 s2 -> flush_frame s2 s3 -> flush_frame s1 s3.
Proof.
  unfold flush_frame. intros H1 H2. rewrite H2. rewrite H1. reflexivity.
Qed.

(** [renderInternal] returns, leaves the queue empty, touches nothing but
    counter, queue and scene, and causes only node effects. *)
Lemma renderInternal_frame s :
  exists s2 l2,
    renderInternal s = (Returned tt, s2, l2) /\
    clipsToRender_ s2 = [] /\
    flush_frame s s2 /\
    Forall (fun e => is_node_effect e = true) l2.
Proof.
  destruct (renderInternal_returns s) as (s2 & l2 & E & Hq).
  exists s2, l2. split; [exact E|]. split; [exact Hq|].
  pose proof (respects_renderInternal
                (fun e : Effect => is_node_effect e = true) flush_frame
                flush_frame_refl flush_frame_trans) as H.
  specialize (H (fun _ _ => eq_refl)).
  specialize (H (fun s c => ltac:(destruct s; reflexivity))).
  specialize (H (fun s sc => ltac:(destruct s; reflexivity))).
  specialize (H (fun _ => eq_refl)).
  specialize (H (fun s q => ltac:(destruct s; reflexivity))).
  specialize (H eq_refl eq_refl s).
  rewrite E in H. cbn in H. destruct H as [Hl Hf]. auto.
Qed.

(** [render], past the guard and the container check, written out in
    terms of what [renderInternal] returned. *)
Lemma render_closed_form s s2 l2 :
  isRendering_ s = false ->
  container_ s <> None ->
  renderInternal (prepared s) = (Returned tt, s2, l2) ->
  let attach := needsAttach s2 in
  let s3 := if attach then set_domParent (container_ s2) s2 else s2 in
  let monitor := negb (renderedResizeMonitor_ s2) && resizeListeners s2 in
  let s4 := if monitor then set_renderedResizeMonitor_ true s3 else s3 in
  let loading := imageLoader s2 && isImageLoading s2 in
  let listen := loading && negb (imageLoadingListener_ s2) in
  let s5 := set_isRendering_ false s4 in
  let s6 := if listen then set_imageLoadingListener_ true s5 else s5 in
  let l3 := if attach
            then [EvAppendChild (container_ s2); EvSetStyle; EvAddClass]
            else [] in
  render s
  = if isDirty s2
    then (Threw DIRTY_AFTER_SYNC_RENDER, s3,
          EvDispatch RENDER_START :: l2 ++ l3)
    else (Returned tt, s6,
          EvDispatch RENDER_START :: l2 ++ l3 ++
          (if monitor then [EvStartResizeMonitor] else []) ++
          EvDispatch RENDER_FINISH ::
          (if loading
           then if listen then [EvListenImageLoader] else []
           else [EvDispatch STAGE_RENDERED])).
Proof.
  intros Hr Hc Hret. cbv zeta.
  destruct (container_ s) as [c|] eqn:Hcs; [clear Hc|congruence].
  unfold render, bind, get. rewrite Hr.
  cbn -[renderInternal needsAttach isDirty]. rewrite Hcs.
  cbn -[renderInternal needsAttach isDirty].
  match goal with |- context [renderInternal ?x] => change x with (prepared s) end.
  rewrite Hret. unfold isDirty.
  destruct (needsAttach s2) eqn:Hna; cbn -[needsAttach];
    destruct (layer_isDirty (nodes s2)) eqn:Hd; cbn -[needsAttach];
    rewrite ?app_nil_r; try reflexivity;
    destruct (renderedResizeMonitor_ s2), (resizeListeners s2);
    cbn -[needsAttach];
    destruct (imageLoader s2), (isImageLoading s2);
    cbn -[needsAttach];
    try destruct (imageLoadingListener_ s2);
    cbn -[needsAttach]; rewrite ?app_nil_r; reflexivity.
Qed.

(** One tick, written out in the same way. *)
Lemma tick_closed_form s s2 l2 :
  renderInternal (prepared_tick s) = (Returned tt, s2, l2) ->
  let attach := needsAttach s2 in
  let s3 := if attach then set_domParent (container_ s2) s2 else s2 in
  let loading := imageLoader s2 && isImageLoading s2 in
  let listen := loading && negb (imageLoadingListener_ s2) in
  let s5 := set_isRendering_ false s3 in
  let s6 := if listen then set_imageLoadingListener_ true s5 else s5 in
  let l3 := if attach then [EvAppendChild (container_ s2)] else [] in
  renderAsync_ s
  = if isDirty s2
    then (Returned tt, s3, l2 ++ l3 ++ [EvSetTimeout])
    else (Returned tt, s6,
          l2 ++ l3 ++
          (if resizeListeners s2 then [EvStartResizeMonitor] else []) ++
          EvDispatch RENDER_FINISH ::
          (if loading
           then if listen then [EvListenImageLoader] else []
           else [EvDispatch STAGE_RENDERED])).
Proof.
  intros Hret. cbv zeta.
  unfold renderAsync_, bind, get.
  cbn -[renderInternal needsAttach isDirty].
  match goal with
  | |- context [renderInternal ?x] => change x with (prepared_tick s)
  end.
  rewrite Hret. unfold isDirty.
  destruct (needsAttach s2) eqn:Hna; cbn -[needsAttach];
    destruct (layer_isDirty (nodes s2)) eqn:Hd; cbn -[needsAttach];
    rewrite ?app_nil_r; try reflexivity;
    destruct (resizeListeners s2);
    cbn -[needsAttach];
    destruct (imageLoader s2), (isImageLoading s2);
    cbn -[needsAttach];
    try destruct (imageLoadingListener_ s2);
    cbn -[needsAttach]; rewrite ?app_nil_r; reflexivity.
Qed.

Lemma flush_frame_fields s s' :
  flush_frame s s' ->
  suspended_ s' = suspended_ s /\
  container_ s' = container_ s /\
  asyncMode_ s' = asyncMode_ s /\
  isRendering_ s' = isRendering_ s /\
  maxDomChanges s' = maxDomChanges s /\
  acquireDomChanges s' = acquireDomChanges s /\
  renderedResizeMonitor_ s' = renderedResizeMonitor_ s /\
  imageLoadingListener_ s' = imageLoadingListener_ s /\
  credits s' = credits s /\
  domParent s' = domParent s /\
  resizeListeners s' = resizeListeners s /\
  imageLoader s' = imageLoader s /\
  isImageLoading s' = isImageLoading s.
Proof. intros ->. cbn. repeat split. Qed.

Lemma flush_frame_needsAttach s s' :
  flush_frame s s' -> needsAttach s' = needsAttach s.
Proof. intros ->. reflexivity. Qed.

(** Node effects are none of the effects a predicate rejects on them. *)
Lemma node_effects_filter (kind : Effect -> bool) l :
  (forall e, is_node_effect e = true -> kind e = false) ->
  Forall (fun e => is_node_effect e = true) l ->
  filter kind l = [].
Proof.
  intros Hk Hl. induction Hl as [|e l He _ IH]; cbn; [reflexivity|].
  rewrite (Hk e He). exact IH.
Qed.

Lemma node_effects_count (kind : Effect -> bool) l :
  (forall e, is_node_effect e = true -> kind e = false) ->
  Forall (fun e => is_node_effect e = true) l ->
  count_where kind l = 0%nat.
Proof.
  intros Hk Hl. unfold count_where.
  rewrite (node_effects_filter kind l Hk Hl). reflexivity.
Qed.

Lemma count_where_app (kind : Effect -> bool) l1 l2 :
  count_where kind (l1 ++ l2)
  = (count_where kind l1 + count_where kind l2)%nat.
Proof. unfold count_where. rewrite filter_app, length_app. reflexivity. Qed.

Lemma count_where_cons (kind : Effect -> bool) (e : Effect) l :
  count_where kind (e :: l)
  = ((if kind e then 1 else 0) + count_where kind l)%nat.
Proof. unfold count_where. cbn. destruct (kind e); reflexivity. Qed.

Ltac node_kind :=
  let e := fresh "e" in
  intros e; destruct e as [[]| | | | | | | | | | |]; cbn;
  solve [reflexivity | discriminate | intros; reflexivity].

(** What [render] does on a detached, idle stage. *)
Lemma render_detached s :
  isRendering_ s = false ->
  container_ s = None ->
  render s
  = (Threw CONTAINER_SHOULD_BE_DEFINED, prepared s, [EvDispatch RENDER_START]).
Proof.
  intros Hr Hc. unfold render, bind, get. rewrite Hr. cbn. rewrite Hc.
  reflexivity.
Qed.

(** RENDER_START opens a synchronous flush and RENDER_FINISH closes it:
    [render] on an idle stage dispatches RENDER_START before anything else;
    nothing is dispatched while nodes render and the DOM is touched; a
    [render] that returns dispatches RENDER_FINISH once, after the last
    backend operation, and one that throws never dispatches it. *)
Theorem render_events_bracket s :
  isRendering s = false ->
  match render s with
  | (r, _, l) =>
      exists body tail,
        l = EvDispatch RENDER_START :: body ++ tail /\
        Forall (fun e => is_dispatch e = false) body /\
        backend_ops tail = [] /\
        count_where (is_event RENDER_START) l = 1%nat /\
        match r with
        | Returned _ =>
            (exists rest, tail = EvDispatch RENDER_FINISH :: rest) /\
            count_where (is_event RENDER_FINISH) l = 1%nat
        | Threw _ =>
            tail = [] /\ count_where (is_event RENDER_FINISH) l = 0%nat
        end
  end.
Proof.
  unfold isRendering. intro Hr.
  destruct (container_ s) as [c|] eqn:Hc.
  - assert (Hc' : container_ s <> None) by congruence.
    destruct (renderInternal_frame (prepared s)) as (s2 & l2 & E & _ & _ & Hl2).
    rewrite (render_closed_form s s2 l2 Hr Hc' E).
    assert (Hd2 : Forall (fun e => is_dispatch e = false) l2).
    { eapply Forall_impl; [|exact Hl2]. node_kind. }
    assert (Hs2 : count_where (is_event RENDER_START) l2 = 0%nat)
      by (apply node_effects_count; [node_kind | exact Hl2]).
    assert (Hf2 : count_where (is_event RENDER_FINISH) l2 = 0%nat)
      by (apply node_effects_count; [node_kind | exact Hl2]).
    destruct (isDirty s2).
    + exists (l2 ++ if needsAttach s2
                    then [EvAppendChild (container_ s2); EvSetStyle; EvAddClass]
                    else []), [].
      rewrite app_nil_r. split; [reflexivity|].
      split; [apply Forall_app; split; [exact Hd2|];
              destruct (needsAttach s2); repeat constructor|].
      split; [reflexivity|].
      rewrite !count_where_cons, !count_where_app, Hs2, Hf2.
      destruct (needsAttach s2); cbn; auto.
    + exists (l2 ++ (if needsAttach s2
                     then [EvAppendChild (container_ s2); EvSetStyle; EvAddClass]
                     else []) ++
              (if negb (renderedResizeMonitor_ s2) && resizeListeners s2
               then [EvStartResizeMonitor] else [])),
             (EvDispatch RENDER_FINISH ::
              (if imageLoader s2 && isImageLoading s2
               then if imageLoader s2 && isImageLoading s2 &&
                       negb (imageLoadingListener_ s2)
                    then [EvListenImageLoader] else []
               else [EvDispatch STAGE_RENDERED])).
      split; [rewrite <- !app_assoc; reflexivity|].
      split.
      { repeat (apply Forall_app; split); [exact Hd2| |].
        - destruct (needsAttach s2); repeat constructor.
        - destruct (negb _ && _); repeat constructor. }
      split.
      { destruct (imageLoader s2 && isImageLoading s2);
          [destruct (true && negb _)|]; reflexivity. }
      rewrite !count_where_cons, !count_where_app, !count_where_cons, Hs2, Hf2.
      split; [|split; [eexists; reflexivity|]];
        destruct (needsAttach s2);
        destruct (negb (renderedResizeMonitor_ s2) && resizeListeners s2);
        destruct (imageLoader s2 && isImageLoading s2);
        try destruct (true && negb (imageLoadingListener_ s2));
        reflexivity.
  - rewrite (render_detached s Hr Hc).
    exists [], []. repeat split; constructor.
Qed.

(** STAGE_RENDERED after a synchronous flush.  A [render] that starts
    while no flush is in progress and returns looks at the image loader
    once RENDER_FINISH is out: if there is none, or no image is loading, it
    dispatches STAGE_RENDERED, once; otherwise it dispatches none and
    registers a listener on the loader, unless [imageLoadingListener_]
    holds one already, and [imageLoadingListener_] holds one afterwards.
    That listener, run on the stage as [render] left it, dispatches
    STAGE_RENDERED once and clears [imageLoadingListener_].  A [render]
    that throws dispatches no STAGE_RENDERED and registers no listener. *)
Theorem stage_rendered_once s :
  isRendering s = false ->
  match render s with
  | (Returned _, s', l) =>
      let loading := imageLoader s' && isImageLoading s' in
      count_where (is_event STAGE_RENDERED) l
      = (if loading then 0%nat else 1%nat) /\
      count_where is_listen l
      = (if loading && negb (imageLoadingListener_ s) then 1%nat else 0%nat) /\
      imageLoadingListener_ s' = imageLoadingListener_ s || loading /\
      (loading = true ->
       imageLoadingComplete s'
       = (Returned tt, set_imageLoadingListener_ false s',
          [EvDispatch STAGE_RENDERED]))
  | (Threw _, s', l) =>
      count_where (is_event STAGE_RENDERED) l = 0%nat /\
      count_where is_listen l = 0%nat /\
      imageLoadingListener_ s' = imageLoadingListener_ s
  end.
Proof.
  unfold isRendering. intros Hr.
  destruct (container_ s) as [c|] eqn:Hc.
  - assert (Hc' : container_ s <> None) by congruence.
    destruct (renderInternal_frame (prepared s)) as (s2 & l2 & E & _ & Hf & Hl2).
    rewrite (render_closed_form s s2 l2 Hr Hc' E).
    assert (Hn2 : count_where (is_event STAGE_RENDERED) l2 = 0%nat)
      by (apply node_effects_count; [node_kind | exact Hl2]).
    assert (Hk2 : count_where is_listen l2 = 0%nat)
      by (apply node_effects_count; [node_kind | exact Hl2]).
    destruct (flush_frame_fields _ _ Hf)
      as (_ & _ & _ & _ & _ & _ & _ & F8 & _).
    cbn in F8.
    destruct (isDirty s2).
    + rewrite !count_where_cons, !count_where_app, Hn2, Hk2.
      destruct (needsAttach s2); cbn; auto.
    + cbv zeta.
      rewrite !count_where_cons, !count_where_app, !count_where_cons, Hn2, Hk2.
      rewrite <- F8.
      destruct (needsAttach s2);
        destruct (negb (renderedResizeMonitor_ s2) && resizeListeners s2);
        destruct (imageLoader s2) eqn:Hil;
        destruct (isImageLoading s2) eqn:Hld;
        destruct (imageLoadingListener_ s2) eqn:Hls;
        cbn; rewrite ?Hil, ?Hld, ?Hls; cbn;
        repeat split; try reflexivity; try discriminate.
  - rewrite (render_detached s Hr Hc). cbn. auto.
Qed.

(** Where the root element ends up: past the container check, [render]
    appends the root element to the container exactly when it is not in
    it already, and afterwards the root element is in the container, also
    when the call then throws DIRTY_AFTER_SYNC_RENDER. *)
Theorem render_attaches_root s :
  isRendering s = false ->
  container_ s <> None ->
  match render s with
  | (_, s', l) =>
      domParent s' = container_ s /\
      container_ s' = container_ s /\
      needsAttach s' = false /\
      filter is_attach l
      = if needsAttach s then [EvAppendChild (container_ s)] else []
  end.
Proof.
  unfold isRendering. intros Hr Hc.
  destruct (renderInternal_frame (prepared s)) as (s2 & l2 & E & _ & Hf & Hl2).
  rewrite (render_closed_form s s2 l2 Hr Hc E).
  pose proof (flush_frame_needsAttach _ _ Hf) as Hna.
  change (needsAttach (prepared s)) with (needsAttach s) in Hna.
  destruct (flush_frame_fields _ _ Hf)
    as (_ & F2 & _ & _ & _ & _ & _ & _ & _ & F10 & _).
  cbn in F2, F10.
  assert (Hno : filter is_attach l2 = [])
    by (apply node_effects_filter; [node_kind | exact Hl2]).
  assert (Hself : forall x : option Element, x <> None ->
            negb (is_some x) || ref_neq x x = false).
  { intros [x|] Hx; [|congruence]. cbn. rewrite Nat.eqb_refl. reflexivity. }
  assert (Hdone : needsAttach s = false -> domParent s = container_ s).
  { unfold needsAttach. destruct (container_ s) as [c|]; [|congruence].
    destruct (domParent s) as [d|]; cbn; [|discriminate].
    destruct (Nat.eqb_spec c d); [congruence | discriminate]. }
  rewrite Hna.
  assert (Hafter : needsAttach s = true ->
            needsAttach (set_domParent (container_ s2) s2) = false).
  { intros _. unfold needsAttach. cbn. apply Hself. congruence. }
  destruct (isDirty s2); destruct (needsAttach s) eqn:Hn;
    destruct (negb (renderedResizeMonitor_ s2) && resizeListeners s2);
    destruct (imageLoader s2 && isImageLoading s2);
    destruct (negb (imageLoadingListener_ s2));
    cbn [andb fst snd filter is_attach app];
    rewrite ?filter_app, ?Hno; cbn [andb fst snd filter is_attach app].
  all: unfold needsAttach in *; cbn; rewrite ?F2, ?F10.
  all: repeat split; auto.
Qed.

(** ** The resize monitor *)




(** ** The asynchronous flush *)

(** In async mode [resume] never renders: it returns, leaves scene, queue,
    counter and allocator alone and causes no backend operation; it
    schedules one tick when the new counter is zero, a container is attached
    and no flush is in progress, and none otherwise. *)
Theorem resume_async_defers (opt_force : option bool) s :
  asyncMode_ s = true ->
  match resume opt_force s with
  | (r, s', l) =>
      r = Returned tt /\
      nodes s' = nodes s /\
      clipsToRender_ s' = clipsToRender_ s /\
      currentDomChangesCount s' = currentDomChangesCount s /\
      acquireDomChanges s' = acquireDomChanges s /\
      backend_ops l = [] /\
      count_where is_timeout l
      = (if (suspended_ s' =? 0) && is_some (container_ s)
            && negb (isRendering_ s)
         then 1%nat else 0%nat) /\
      isRendering_ s'
      = isRendering_ s || ((suspended_ s' =? 0) && is_some (container_ s))
  end.
Proof.
  intro Ha. pose proof (resume_unfold opt_force s) as E. cbn zeta in E.
  rewrite E, Ha. clear E.
  set (v := if truthy opt_force then 0 else Z.max (suspended_ s - 1) 0).
  change (suspended_ (set_suspended_ v s)) with v.
  destruct ((v =? 0) && is_some (container_ s)) eqn:Hcond.
  - apply andb_prop in Hcond. destruct Hcond as [Hv Hc].
    unfold renderAsync, bind, get. cbn.
    destruct (isRendering_ s) eqn:Hr; cbn.
    + rewrite Hv, Hr, Hc. repeat split.
    + destruct (container_ s); [|discriminate]. cbn. rewrite Hv.
      repeat split.
  - cbn. rewrite Hcond. cbn. rewrite orb_false_r. repeat split.
Qed.

(** A tick on an attached stage either leaves the scene dirty, schedules
    exactly one more tick, dispatches no RENDER_FINISH and keeps the
    rendering flag as it was; or it leaves the scene clean, schedules
    nothing, dispatches RENDER_FINISH once and lowers the flag.  It never
    throws. *)
Theorem tick_continues_or_finishes s :
  container_ s <> None ->
  match renderAsync_ s with
  | (r, s', l) =>
      r = Returned tt /\
      if isDirty s'
      then count_where is_timeout l = 1%nat /\
           count_where (is_event RENDER_FINISH) l = 0%nat /\
           isRendering_ s' = isRendering_ s
      else count_where is_timeout l = 0%nat /\
           count_where (is_event RENDER_FINISH) l = 1%nat /\
           isRendering_ s' = false
  end.
Proof.
  intros _.
  destruct (renderInternal_frame (prepared_tick s)) as (s2 & l2 & E & _ & Hf & Hl2).
  rewrite (tick_closed_form s s2 l2 E).
  assert (Ht2 : count_where is_timeout l2 = 0%nat)
    by (apply node_effects_count; [node_kind | exact Hl2]).
  assert (Hf2 : count_where (is_event RENDER_FINISH) l2 = 0%nat)
    by (apply node_effects_count; [node_kind | exact Hl2]).
  destruct (flush_frame_fields _ _ Hf) as (_ & _ & _ & F4 & _).
  cbn in F4. unfold isDirty.
  destruct (layer_isDirty (nodes s2)) eqn:Hd.
  - split; [reflexivity|].
    assert (Hd' : layer_isDirty
                    (nodes (if needsAttach s2
                            then set_domParent (container_ s2) s2 else s2))
                  = true) by (destruct (needsAttach s2); exact Hd).
    rewrite Hd'.
    rewrite !count_where_app, Ht2, Hf2.
    destruct (needsAttach s2); cbn; auto.
  - split; [reflexivity|].
    rewrite !count_where_app, !count_where_cons, Ht2, Hf2.
    destruct (needsAttach s2);
      destruct (resizeListeners s2);
      destruct (imageLoader s2 && isImageLoading s2);
      destruct (negb (imageLoadingListener_ s2));
      cbn; rewrite Hd; cbn; auto.
Qed.

(** A tick that finds an attached stage with nothing to do (empty queue,
    clean root layer, root element in place, no [credits]) performs no
    backend operation, changes neither scene nor queue, and reports the
    end of the flush. *)
Theorem tick_on_clean_stage s :
  container_ s <> None ->
  clipsToRender_ s = [] ->
  isDirty s = false ->
  credits s = false ->
  needsAttach s = false ->
  match renderAsync_ s with
  | (r, s', l) =>
      r = Returned tt /\
      backend_ops l = [] /\
      nodes s' = nodes s /\
      clipsToRender_ s' = [] /\
      currentDomChangesCount s' = 0 /\
      isRendering_ s' = false /\
      count_where (is_event RENDER_FINISH) l = 1%nat
  end.
Proof.
  intros _ Hq Hd Hcr Hna.
  assert (E : renderInternal (prepared_tick s)
              = (Returned tt, prepared_tick s, []))
    by (apply renderInternal_clean; assumption).
  rewrite (tick_closed_form s _ _ E).
  change (needsAttach (prepared_tick s)) with (needsAttach s).
  change (isDirty (prepared_tick s)) with (isDirty s).
  rewrite Hna, Hd.
  destruct (resizeListeners (prepared_tick s));
    destruct (imageLoader (prepared_tick s) && isImageLoading (prepared_tick s));
    destruct (negb (imageLoadingListener_ (prepared_tick s)));
    cbn; repeat split; auto.
Qed.

(** The asynchronous flush starts the resize monitor without looking at
    [renderedResizeMonitor_]: the tick that ends a flush on a stage with a
    STAGE_RESIZE listener starts the monitor, also when it was started
    before, and does not record that it did; a tick that leaves the stage
    dirty does not start it. *)
Theorem tick_starts_monitor_unguarded s :
  container_ s <> None ->
  match renderAsync_ s with
  | (_, s', l) =>
      renderedResizeMonitor_ s' = renderedResizeMonitor_ s /\
      count_where is_resize_monitor l
      = (if negb (isDirty s') && resizeListeners s then 1%nat else 0%nat)
  end.
Proof.
  intros _.
  destruct (renderInternal_frame (prepared_tick s)) as (s2 & l2 & E & _ & Hf & Hl2).
  rewrite (tick_closed_form s s2 l2 E).
  assert (Hn2 : count_where is_resize_monitor l2 = 0%nat)
    by (apply node_effects_count; [node_kind | exact Hl2]).
  destruct (flush_frame_fields _ _ Hf)
    as (_ & _ & _ & _ & _ & _ & F7 & _ & _ & _ & F11 & _).
  cbn in F7, F11. unfold isDirty.
  destruct (layer_isDirty (nodes s2)) eqn:Hd.
  - assert (Hd' : layer_isDirty
                    (nodes (if needsAttach s2
                            then set_domParent (container_ s2) s2 else s2))
                  = true) by (destruct (needsAttach s2); exact Hd).
    rewrite Hd'. rewrite !count_where_app, Hn2.
    destruct (needsAttach s2); cbn; auto.
  - rewrite !count_where_app, !count_where_cons, Hn2, F11.
    destruct (needsAttach s2);
      destruct (resizeListeners s);
      destruct (imageLoader s2 && isImageLoading s2);
      destruct (negb (imageLoadingListener_ s2));
      cbn; rewrite Hd, F7; cbn; auto.
Qed.

(** ** Nested suspensions *)

Lemma run_calls_app (a b : list Call) s :
  run_calls (a ++ b) s
  = match run_calls a s with
    | (s1, l1) =>
        match run_calls b s1 with
        | (s2, l2) => (s2, l1 ++ l2)
        end
    end.
Proof.
  revert s. induction a as [|c a IH]; intro s; cbn [run_calls app].
  - destruct (run_calls b s) as [s2 l2]. reflexivity.
  - destruct (run_call c s) as [[r s1] l1]. rewrite IH.
    destruct (run_calls a s1) as [s2 l2].
    destruct (run_calls b s2) as [s3 l3]. rewrite app_assoc. reflexivity.
Qed.

Lemma set_suspended_same s : set_suspended_ (suspended_ s) s = s.
Proof. destruct s; reflexivity. Qed.

Lemma set_suspended_twice (a b : Z) s :
  set_suspended_ a (set_suspended_ b s) = set_suspended_ a s.
Proof. reflexivity. Qed.

Lemma suspends_add_up (n : nat) s :
  run_calls (repeat CallSuspend n) s
  = (set_suspended_ (suspended_ s + Z.of_nat n) s, []).
Proof.
  revert s. induction n as [|n IH]; intro s.
  - cbn. rewrite Z.add_0_r, set_suspended_same. reflexivity.
  - cbn [repeat run_calls run_call]. unfold suspend, modify.
    rewrite IH. cbn.
    replace (suspended_ s + 1 + Z.of_nat n)
      with (suspended_ s + Z.pos (Pos.of_succ_nat n)) by lia.
    reflexivity.
Qed.

Lemma resumes_while_suspended (k : nat) s :
  Z.of_nat k < suspended_ s ->
  run_calls (repeat (CallResume None) k) s
  = (set_suspended_ (suspended_ s - Z.of_nat k) s, []).
Proof.
  revert s. induction k as [|k IH]; intros s Hk.
  - cbn. rewrite Z.sub_0_r, set_suspended_same. reflexivity.
  - cbn [repeat run_calls run_call].
    pose proof (resume_unfold None s) as E. cbn zeta in E. rewrite E. clear E.
    cbn [truthy].
    change (suspended_ (set_suspended_ (Z.max (suspended_ s - 1) 0) s))
      with (Z.max (suspended_ s - 1) 0).
    destruct (Z.eqb_spec (Z.max (suspended_ s - 1) 0) 0) as [H0|H0]; [lia|].
    cbn [andb]. rewrite IH by (cbn; lia). cbn.
    replace (Z.max (suspended_ s - 1) 0 - Z.of_nat k)
      with (suspended_ s - Z.pos (Pos.of_succ_nat k)) by lia.
    reflexivity.
Qed.

(** Suspensions nest: [n] calls of [suspend] followed by [n] calls of
    [resume] amount to one flush, called by the last [resume], when the
    stage was not suspended before and has a container, and to nothing at
    all otherwise. *)
Theorem nested_suspend_resume (n : nat) s :
  0 <= suspended_ s ->
  run_calls (repeat CallSuspend (S n) ++ repeat (CallResume None) (S n)) s
  = if (suspended_ s =? 0) && is_some (container_ s)
    then match (if asyncMode_ s then renderAsync else render) s with
         | (_, s', l) =>
             (s', EvInvoke (if asyncMode_ s then RenderAsync else Render) :: l)
         end
    else (s, []).
Proof.
  intro H0. rewrite run_calls_app, suspends_add_up.
  destruct (Z.eqb_spec (suspended_ s) 0) as [Hz|Hnz]; cbn [andb].
  - change (repeat (CallResume None) (S n))
      with (CallResume None :: repeat (CallResume None) n).
    rewrite repeat_cons, run_calls_app.
    rewrite resumes_while_suspended by (cbn; lia).
    cbn [run_calls run_call].
    pose proof (resume_unfold None
                  (set_suspended_
                     (suspended_ (set_suspended_ (suspended_ s + Z.of_nat (S n)) s)
                      - Z.of_nat n)
                     (set_suspended_ (suspended_ s + Z.of_nat (S n)) s))) as E.
    cbn zeta in E. rewrite E. clear E. cbn [truthy].
    repeat match goal with
           | |- context [Z.max ?x 0] =>
               replace (Z.max x 0) with (suspended_ s) by (cbn; lia)
           end.
    rewrite !set_suspended_twice, set_suspended_same.
    cbn [container_ asyncMode_ set_suspended_].
    destruct (Z.eqb_spec (suspended_ s) 0) as [_|Hn]; [|congruence].
    cbn [andb].
    destruct (is_some (container_ s)); [|reflexivity].
    destruct ((if asyncMode_ s then renderAsync else render) s) as [[r s'] l].
    cbn [app]. rewrite app_nil_r. reflexivity.
  - rewrite resumes_while_suspended by (cbn; lia).
    rewrite set_suspended_twice.
    change (suspended_ (set_suspended_ ?a s)) with a.
    replace (suspended_ s + Z.of_nat (S n) - Z.of_nat (S n))
      with (suspended_ s) by lia.
    rewrite set_suspended_same. reflexivity.
Qed.

(** ** Reserving and handing back *)

(** Units taken from the budget and handed back leave the stage as it
    was: after any grant, by [acquireDomChanges] or by
    [blockChangesForAdding], under either allocator, [releaseDomChanges]
    with [made] changes out of the grant leaves the counter [made] above
    where it started, and with none made restores the stage exactly. *)
Theorem release_undoes_acquire (wanted made : Z) s :
  (let (granted, s1) := call_acquireDomChanges wanted s in
   releaseDomChanges granted made s1
   = set_currentDomChangesCount (currentDomChangesCount s + made) s /\
   releaseDomChanges granted 0 s1 = s) /\
  (let (blocked, s1) := blockChangesForAdding s in
   releaseDomChanges blocked made s1
   = set_currentDomChangesCount (currentDomChangesCount s + made) s /\
   releaseDomChanges blocked 0 s1 = s).
Proof.
  assert (Hgen : forall w,
    let (granted, s1) := call_acquireDomChanges w s in
    releaseDomChanges granted made s1
    = set_currentDomChangesCount (currentDomChangesCount s + made) s /\
    releaseDomChanges granted 0 s1 = s).
  { intro w. pose proof (call_acquireDomChanges_count w s) as Hs.
    destruct (call_acquireDomChanges w s) as [g s1]. cbn [fst snd] in Hs.
    subst s1. destruct s. unfold releaseDomChanges, set_currentDomChangesCount.
    cbn. split; f_equal; lia. }
  split; [apply Hgen|]. unfold blockChangesForAdding. apply Hgen.
Qed.

End FlushShape.

Section ClipQueueFacts.

Context {Scene Clip : Type} `{Nodes : SceneNodes Scene Clip}.

Variable Clip_eq_dec : forall a b : Clip, {a = b} + {a <> b}.

Local Abbreviation Stage := (Stage Scene Clip).
Local Abbreviation Effect := (Effect Clip).

Implicit Types (s : Stage) (l : list Effect) (c : Clip).

Lemma set_clips_same s : set_clipsToRender_ (clipsToRender_ s) s = s.
Proof. destruct s; reflexivity. Qed.

(** [addClipForRender] on a suspended stage only queues: clips added one
    after the other end up behind the clips already queued, in the order
    of the calls, and nothing is rendered.  On a stage that is not
    suspended the call runs the clip's [render], whether the clip is dirty
    or not, on the stage as it is, and stores the scene that rendering
    produced; its effects are those of the rendering, which are quota
    movements only, and outside counter and scene the stage is as before,
    the queue included. *)
Theorem addClipForRender_queues_or_renders s :
  (isSuspended s = true ->
   forall clips,
     addClipsForRender clips s
     = (Returned tt, set_clipsToRender_ (clipsToRender_ s ++ clips) s, [])) /\
  (isSuspended s = false ->
   forall c,
     match exec (clip_render c (nodes s)) s with
     | (r, s1, l) =>
         exists sc,
           r = Returned sc /\
           addClipForRender c s
           = (Returned tt, set_nodes sc s1, EvClipRender c :: l) /\
           clipsToRender_ s1 = clipsToRender_ s /\
           flush_frame s (set_nodes sc s1) /\
           Forall (fun e => is_node_effect e = true) l
     end).
Proof.
  split.
  - intros Hs clips. revert s Hs.
    induction clips as [|c rest IH]; intros s Hs; cbn [addClipsForRender].
    + cbn. rewrite app_nil_r, set_clips_same. reflexivity.
    + unfold bind at 1. unfold addClipForRender at 1. unfold bind at 1.
      cbn [get]. rewrite Hs. cbn [negb modify].
      rewrite IH by exact Hs. cbn. rewrite <- app_assoc. reflexivity.
  - intros Hs c.
    pose proof (renderNode_queue (clip_render c (nodes s)) s) as Hq.
    pose proof (respects_renderNode
                  (fun e : Effect => is_node_effect e = true) flush_frame
                  flush_frame_refl flush_frame_trans
                  (fun _ _ => eq_refl)
                  (fun s (n : Z) => ltac:(destruct s; reflexivity))
                  (fun s sc => ltac:(destruct s; reflexivity))
                  (clip_render c (nodes s)) s) as [Hl Hf].
    destruct (exec_returns (clip_render c (nodes s)) s) as [sc Hsc].
    unfold addClipForRender, bind at 1. cbn [get].
    rewrite Hs. cbn [negb]. unfold bind at 1. cbn [tell].
    unfold renderNode, bind in *.
    destruct (exec (clip_render c (nodes s)) s) as [[r s1] l].
    cbn [fst snd] in *. subst r. cbn in *. rewrite app_nil_r in *.
    exists sc. repeat split; auto.
Qed.

Lemma array_remove_absent c (arr : list Clip) :
  ~ In c arr -> array_remove Clip_eq_dec c arr = arr.
Proof.
  induction arr as [|x arr IH]; intro Hn; cbn; [reflexivity|].
  destruct (Clip_eq_dec x c) as [->|_].
  - exfalso. apply Hn. left. reflexivity.
  - rewrite IH; [reflexivity|]. intro H. apply Hn. right. exact H.
Qed.

Lemma array_remove_first c (before after : list Clip) :
  ~ In c before ->
  array_remove Clip_eq_dec c (before ++ c :: after) = before ++ after.
Proof.
  induction before as [|x before IH]; intro Hn; cbn.
  - destruct (Clip_eq_dec c c) as [_|H]; [reflexivity | congruence].
  - destruct (Clip_eq_dec x c) as [->|_].
    + exfalso. apply Hn. left. reflexivity.
    + rewrite IH; [reflexivity|]. intro H. apply Hn. right. exact H.
Qed.

(** [removeClipFromRender] takes the first occurrence of the clip out of
    the queue and keeps the others in order; a clip that is not queued
    leaves the stage as it is; and on a suspended stage, queueing a clip
    that was not queued and removing it again gives the stage back. *)
Theorem removeClipFromRender_first_occurrence c s :
  (~ In c (clipsToRender_ s) ->
   removeClipFromRender Clip_eq_dec c s = (Returned tt, s, [])) /\
  (forall before after : list Clip,
     clipsToRender_ s = before ++ c :: after -> ~ In c before ->
     removeClipFromRender Clip_eq_dec c s
     = (Returned tt, set_clipsToRender_ (before ++ after) s, [])) /\
  (isSuspended s = true -> ~ In c (clipsToRender_ s) ->
   (addClipForRender c ;; removeClipFromRender Clip_eq_dec c) s
   = (Returned tt, s, [])).
Proof.
  split; [|split].
  - intro Hn. unfold removeClipFromRender, modify.
    rewrite array_remove_absent by exact Hn. rewrite set_clips_same.
    reflexivity.
  - intros l1 l2 Hq Hn. unfold removeClipFromRender, modify.
    rewrite Hq, array_remove_first by exact Hn. reflexivity.
  - intros Hs Hn. unfold bind, addClipForRender, bind. cbn [get].
    rewrite Hs. cbn [negb modify]. unfold removeClipFromRender, modify.
    change (clipsToRender_ (set_clipsToRender_ (clipsToRender_ s ++ [c]) s))
      with (clipsToRender_ s ++ [c]).
    rewrite array_remove_first by exact Hn. rewrite app_nil_r.
    change (set_clipsToRender_ (clipsToRender_ s)
              (set_clipsToRender_ (clipsToRender_ s ++ [c]) s))
      with (set_clipsToRender_ (clipsToRender_ s) s).
    rewrite set_clips_same. reflexivity.
Qed.

Lemma renderClips_clean (clips : list Clip) s :
  Forall (fun c => clip_isDirty c (nodes s) = false) clips ->
  renderClips clips s = (Returned tt, s, []).
Proof.
  induction 1 as [|c rest Hc _ IH]; cbn [renderClips]; [reflexivity|].
  unfold bind at 1 2. cbn [get]. rewrite Hc. cbn [when ret].
  rewrite IH. reflexivity.
Qed.

(** Clean clips cost nothing: when every queued clip and the root layer
    are clean and there is no [credits], [renderInternal] empties the queue
    and does nothing else: no node is rendered and no quota is asked for. *)
Theorem clean_queue_is_dropped s :
  Forall (fun c => clip_isDirty c (nodes s) = false) (clipsToRender_ s) ->
  layer_isDirty (nodes s) = false ->
  credits s = false ->
  renderInternal s = (Returned tt, set_clipsToRender_ [] s, []).
Proof.
  intros Hq Hd Hc. unfold renderInternal. unfold bind at 1 2. cbn [get].
  destruct (clipsToRender_ s) as [|c q] eqn:Eq.
  - cbn [length Nat.eqb negb when ret].
    unfold bind, get. rewrite Hd. cbn. rewrite Hc. cbn.
    rewrite <- Eq, set_clips_same. reflexivity.
  - cbn [length Nat.eqb negb when]. unfold bind at 1.
    rewrite (renderClips_clean (c :: q) s Hq). cbn [modify].
    unfold bind, get. cbn. rewrite Hd. cbn. rewrite Hc. reflexivity.
Qed.

Lemma bind_log {A B : Type} (m : M A) (f : A -> M B) s :
  exists l2,
    snd (bind m f s) = snd (m s) ++ l2 /\
    match fst (fst (m s)) with
    | Returned a => l2 = snd (f a (snd (fst (m s))))
    | Threw _ => l2 = []
    end.
Proof.
  unfold bind. destruct (m s) as [[[a|e] s1] l1]; cbn [fst snd].
  - destruct (f a s1) as [[r s2] l2]. exists l2. auto.
  - exists []. rewrite app_nil_r. auto.
Qed.

Lemma filter_none (kind : Effect -> bool) l :
  Forall (fun e => kind e = false) l -> filter kind l = [].
Proof.
  induction 1 as [|x l Hx _ IH]; cbn; [reflexivity|].
  rewrite Hx. exact IH.
Qed.

Ltac any_state_step :=
  lazymatch goal with
  | |- respects _ _ (bind _ _) =>
      apply (respects_bind _ _ (fun _ _ _ _ _ => I)); [|intro]
  | |- respects _ _ get => apply (respects_get _ _ (fun _ => I))
  | |- respects _ _ (ret _) => apply (respects_ret _ _ (fun _ => I))
  | |- respects _ _ (tell _) =>
      apply (respects_tell _ _ (fun _ => I)); repeat constructor
  | |- respects _ _ (modify _) => apply respects_modify; intro; exact I
  | |- respects _ _ (when _ _) => apply (respects_when _ _ (fun _ => I))
  | |- respects _ _ (renderNode _) =>
      apply (respects_renderNode _ _ (fun _ => I) (fun _ _ _ _ _ => I));
      [intros; reflexivity | intros; exact I | intros; exact I]
  | |- respects _ _ (renderClips _) =>
      apply (respects_renderClips _ _ (fun _ => I) (fun _ _ _ _ _ => I));
      [intros; reflexivity | intros; exact I | intros; exact I
      | intros; reflexivity]
  end.

(** Within a flush the queued clips come first: the record of
    [renderInternal] splits into a part in which no root layer or credits
    is rendered, followed by a part in which no clip is rendered. *)
Theorem clips_render_before_layer s :
  exists l1 l2,
    snd (renderInternal s) = l1 ++ l2 /\
    filter is_layer_render l1 = [] /\
    filter is_clip_render l2 = [].
Proof.
  unfold renderInternal. unfold bind at 1. cbn [get].
  match goal with
  | |- context [bind ?m ?f s] =>
      destruct (bind_log m f s) as (l2 & E & H2);
      assert (H1 : @respects Scene Clip
                     (fun e => is_layer_render e = false) (fun _ _ => True)
                     _ m) by (repeat any_state_step);
      assert (H3 : forall u, @respects Scene Clip
                     (fun e => is_clip_render e = false) (fun _ _ => True)
                     _ (f u)) by (intro; repeat any_state_step)
  end.
  destruct (bind _ _ s) as [[r s'] l]. cbn [snd app] in *. subst l.
  eexists _, l2. split; [reflexivity|]. split.
  - apply filter_none. apply H1.
  - destruct (fst (fst _)) as [[]|e]; subst l2; [|reflexivity].
    apply filter_none. apply (H3 tt).
Qed.

End ClipQueueFacts.

(** * Identifier, title and description *)

Module LabelFacts.

Import String.
Import Labels.
Local Open Scope string_scope.

Lemma or_empty_same (v : string) : or_empty v = v.
Proof.
  unfold or_empty. destruct (String.eqb_spec v ""); [subst|]; reflexivity.
Qed.

Lemma loose_eq_refl (t : Text) : loose_eq t t = true.
Proof. destruct t; cbn; [reflexivity | reflexivity | apply String.eqb_refl]. Qed.

(** The identifier is generated lazily and once: reading the identifier of
    a stage that has none asks the generator, stores the answer and tells
    the renderer; every later read returns that same identifier without
    asking the generator or the renderer again, whatever the generator
    would answer then.  Reading an identifier that is set never asks. *)
Theorem id_generated_once (generated later : string) (a : Attrs) :
  match id_ a with
  | None =>
      match id generated None a with
      | (r, a1, l) =>
          r = Some generated /\
          l = [GenerateId; SetId generated] /\
          titleVal_ a1 = titleVal_ a /\ descVal_ a1 = descVal_ a /\
          id later None a1 = (Some generated, a1, [])
      end
  | Some v => id generated None a = (Some v, a, [])
  end.
Proof.
  destruct a as [[v|] t d]; unfold id, set_id;
    cbn [id_ titleVal_ descVal_]; rewrite ?or_empty_same; [reflexivity|].
  repeat split.
Qed.

(** Setting and reading the identifier: after [id(v)] the getter returns
    [v] without asking the generator; the renderer is told exactly when
    the identifier changes; setting the same identifier again does
    nothing. *)
Theorem id_set_then_get (generated v : string) (a : Attrs) :
  match id generated (Some v) a with
  | (_, a1, l) =>
      id generated None a1 = (Some v, a1, []) /\
      l = (if match id_ a with
              | Some old => String.eqb old v
              | None => false
              end
           then [] else [SetId v]) /\
      id generated (Some v) a1 = (None, a1, []) /\
      titleVal_ a1 = titleVal_ a /\ descVal_ a1 = descVal_ a
  end.
Proof.
  destruct a as [[old|] t d]; unfold id, set_id;
    cbn [id_ titleVal_ descVal_]; rewrite ?or_empty_same.
  - destruct (String.eqb_spec old v) as [->|Hov];
      cbn [id_ titleVal_ descVal_]; rewrite ?or_empty_same, ?String.eqb_refl;
      repeat split.
  - cbn [id_ titleVal_ descVal_]. rewrite ?or_empty_same, ?String.eqb_refl.
    repeat split.
Qed.

(** Title and description: after [title(v)] the getter returns a value
    loosely equal to [v], namely [v] itself unless the old title was
    already loosely equal to it (setting [null] on a stage whose title is
    [undefined] leaves it [undefined]); the renderer is told exactly when
    the old title was not loosely equal; setting it again does nothing;
    identifier and description are untouched.  The same holds for [desc]
    with the roles of title and description exchanged. *)
Theorem title_desc_set_then_get (v : Text) (a : Attrs) :
  v <> Undefined ->
  match title v a with
  | (_, a1, l) =>
      title Undefined a1
      = (Some (if loose_eq (titleVal_ a) v then titleVal_ a else v), a1, []) /\
      loose_eq (titleVal_ a1) v = true /\
      l = (if loose_eq (titleVal_ a) v then [] else [SetTitle v]) /\
      title v a1 = (None, a1, []) /\
      id_ a1 = id_ a /\ descVal_ a1 = descVal_ a
  end /\
  match desc v a with
  | (_, a1, l) =>
      desc Undefined a1
      = (Some (if loose_eq (descVal_ a) v then descVal_ a else v), a1, []) /\
      loose_eq (descVal_ a1) v = true /\
      l = (if loose_eq (descVal_ a) v then [] else [SetDesc v]) /\
      desc v a1 = (None, a1, []) /\
      id_ a1 = id_ a /\ titleVal_ a1 = titleVal_ a
  end.
Proof.
  intro Hv. destruct a as [i t d].
  split.
  - destruct v as [| |x]; [congruence| |]; cbn.
    + destruct (loose_eq t Null) eqn:Hl; cbn; rewrite ?Hl; repeat split.
    + destruct (loose_eq t (Str x)) eqn:Hl; cbn;
        rewrite ?Hl, ?String.eqb_refl; repeat split.
  - destruct v as [| |x]; [congruence| |]; cbn.
    + destruct (loose_eq d Null) eqn:Hl; cbn; rewrite ?Hl; repeat split.
    + destruct (loose_eq d (Str x)) eqn:Hl; cbn;
        rewrite ?Hl, ?String.eqb_refl; repeat split.
Qed.

End LabelFacts.

(** * Export of PNG and JPG images *)

Module ExportFacts.

Import String.
Import Exporting.
Local Open Scope string_scope.
Local Open Scope list_scope.

Section RequestFacts.

Context {Num : Type}.

Implicit Types (data : Object Num) (c : Canvas Num) (host : Host).

(** Reading a property after an assignment. *)
Lemma obj_get_set (k k' : string) (v : Value Num) data :
  obj_get k (obj_set k' v data)
  = if String.eqb k' k then Some v else obj_get k data.
Proof.
  induction data as [|[k0 v0] rest IH]; cbn; [reflexivity|].
  destruct (String.eqb_spec k0 k') as [->|Hk0]; cbn.
  - destruct (String.eqb k' k); reflexivity.
  - rewrite IH.
    destruct (String.eqb_spec k0 k) as [->|H0];
      destruct (String.eqb_spec k' k) as [->|H1]; congruence.
Qed.

(** A property never assigned is [undefined]. *)
Lemma obj_get_absent (k : string) data :
  ~ In k (map fst data) -> obj_get k data = None.
Proof.
  induction data as [|[k0 v0] rest IH]; cbn; intro Hn; [reflexivity|].
  destruct (String.eqb_spec k0 k) as [->|H0].
  - exfalso. apply Hn. left. reflexivity.
  - apply IH. intro H. apply Hn. right. exact H.
Qed.

Ltac request_fields :=
  unfold image_request;
  repeat match goal with
         | |- _ /\ _ => split
         end;
  lazymatch goal with
  | |- forall k, _ =>
      let k := fresh "k" in
      let Hk := fresh "Hk" in
      let H := fresh "H" in
      intros k Hk; apply obj_get_absent; cbn;
      intro H; apply Hk; cbn; tauto
  | |- _ => cbn; reflexivity
  end.

(** Sharing an image: on the SVG backend [shareAsPng] and [shareAsJpg] take
    the SVG of the stage and then send one request, to [/png] or [/jpg],
    whose answer is read at [url].  The request asks the server to keep the
    file ([save] is [true]); its [responseType] is [base64] when
    [opt_asBase64] is truthy and [file] otherwise; each optional setting is
    in the request exactly when it was given, with the value given. *)
Theorem share_request_fields host c (opt_asBase64 : option bool)
    (opt_width opt_height opt_quality : option Num)
    (opt_forceTransparentWhite : option bool) (opt_filename : option string) :
  type host = SVG ->
  (exists data,
     shareAsPng host c opt_asBase64 opt_width opt_height opt_quality
                opt_filename
     = snd (toSvg host c) ++ [XhrSend "/png" "url" data] /\
     image_request data (fst (toSvg host c))
       (if truthy opt_asBase64 then "base64" else "file") true
       opt_width opt_height opt_quality None opt_filename) /\
  (exists data,
     shareAsJpg host c opt_asBase64 opt_width opt_height opt_quality
                opt_forceTransparentWhite opt_filename
     = snd (toSvg host c) ++ [XhrSend "/jpg" "url" data] /\
     image_request data (fst (toSvg host c))
       (if truthy opt_asBase64 then "base64" else "file") true
       opt_width opt_height opt_quality opt_forceTransparentWhite
       opt_filename).
Proof.
  intro Ht. split.
  - unfold shareAsPng, addPngData_, shareUrl_. rewrite Ht.
    destruct (toSvg host c) as [svg l]. cbn [fst snd].
    eexists. split; [reflexivity|].
    destruct opt_asBase64 as [[]|], opt_width, opt_height, opt_quality,
      opt_filename; request_fields.
  - unfold shareAsJpg, addJpgData_, shareUrl_. rewrite Ht.
    destruct (toSvg host c) as [svg l]. cbn [fst snd].
    eexists. split; [reflexivity|].
    destruct opt_asBase64 as [[]|], opt_width, opt_height, opt_quality,
      opt_forceTransparentWhite, opt_filename; request_fields.
Qed.

(** Asking for the image itself: on the SVG backend [getPngBase64String]
    and [getJpgBase64String] send one request, to [/png] or [/jpg], whose
    answer is read at [result]; its [responseType] is [base64], and it has
    neither [save] nor [file-name]. *)
Theorem base64_request_fields host c
    (opt_width opt_height opt_quality : option Num)
    (opt_forceTransparentWhite : option bool) :
  type host = SVG ->
  (exists data,
     getPngBase64String host c opt_width opt_height opt_quality
     = snd (toSvg host c) ++ [XhrSend "/png" "result" data] /\
     image_request data (fst (toSvg host c)) "base64" false
       opt_width opt_height opt_quality None None) /\
  (exists data,
     getJpgBase64String host c opt_width opt_height opt_quality
                        opt_forceTransparentWhite
     = snd (toSvg host c) ++ [XhrSend "/jpg" "result" data] /\
     image_request data (fst (toSvg host c)) "base64" false
       opt_width opt_height opt_quality opt_forceTransparentWhite None).
Proof.
  intro Ht. split.
  - unfold getPngBase64String, addPngData_, shareUrl_. rewrite Ht.
    destruct (toSvg host c) as [svg l]. cbn [fst snd].
    eexists. split; [reflexivity|].
    destruct opt_width, opt_height, opt_quality; request_fields.
  - unfold getJpgBase64String, addJpgData_, shareUrl_. rewrite Ht.
    destruct (toSvg host c) as [svg l]. cbn [fst snd].
    eexists. split; [reflexivity|].
    destruct opt_width, opt_height, opt_quality, opt_forceTransparentWhite;
      request_fields.
Qed.

(** Saving an image needs the helper element.  On the SVG backend, when
    the stage has a helper element or an origin container to make one in,
    [saveAsPng] and [saveAsJpg] take the SVG, make the helper if there was
    none, and hand it one request with [responseType] [file] and no [save].
    When the stage has neither, they take the SVG and then fail on the
    missing helper: no request is made and the stage is unchanged. *)
Theorem save_request_or_type_error host c
    (opt_width opt_height opt_quality : option Num)
    (opt_forceTransparentWhite : option bool) (opt_filename : option string) :
  type host = SVG ->
  match saveAsPng host c opt_width opt_height opt_quality opt_filename with
  | (r, c', l) =>
      if helperElement_ c || is_some (originContainer_ c)
      then r = Returns /\
           c' = set_helperElement_ true c /\
           exists options,
             l = snd (toSvg host c) ++
                 (if helperElement_ c then [] else [NewHelperElement]) ++
                 [SendRequestToExportServer "/png" options] /\
             image_request options (fst (toSvg host c)) "file" false
               opt_width opt_height opt_quality None opt_filename
      else r = TypeError /\ c' = c /\ l = snd (toSvg host c)
  end /\
  match saveAsJpg host c opt_width opt_height opt_quality
                  opt_forceTransparentWhite opt_filename with
  | (r, c', l) =>
      if helperElement_ c || is_some (originContainer_ c)
      then r = Returns /\
           c' = set_helperElement_ true c /\
           exists options,
             l = snd (toSvg host c) ++
                 (if helperElement_ c then [] else [NewHelperElement]) ++
                 [SendRequestToExportServer "/jpg" options] /\
             image_request options (fst (toSvg host c)) "file" false
               opt_width opt_height opt_quality opt_forceTransparentWhite
               opt_filename
      else r = TypeError /\ c' = c /\ l = snd (toSvg host c)
  end.
Proof.
  intro Ht. split.
  - unfold saveAsPng, addPngData_, getHelperElement. rewrite Ht.
    destruct (toSvg host c) as [svg l]. cbn [fst snd].
    destruct c as [d w h ow oh oc []]; cbn [helperElement_ originContainer_
      negb orb set_helperElement_ domElement_ width_ height_ originalWidth
      originalHeight].
    + split; [reflexivity|]. split; [reflexivity|].
      eexists. split; [reflexivity|].
      destruct opt_width, opt_height, opt_quality, opt_filename;
        request_fields.
    + destruct oc as [o|]; cbn [is_some].
      * split; [reflexivity|]. split; [reflexivity|].
        eexists. split; [reflexivity|].
        destruct opt_width, opt_height, opt_quality, opt_filename;
          request_fields.
      * rewrite app_nil_r. repeat split.
  - unfold saveAsJpg, addJpgData_, getHelperElement. rewrite Ht.
    destruct (toSvg host c) as [svg l]. cbn [fst snd].
    destruct c as [d w h ow oh oc []]; cbn [helperElement_ originContainer_
      negb orb set_helperElement_ domElement_ width_ height_ originalWidth
      originalHeight].
    + split; [reflexivity|]. split; [reflexivity|].
      eexists. split; [reflexivity|].
      destruct opt_width, opt_height, opt_quality,
        opt_forceTransparentWhite, opt_filename; request_fields.
    + destruct oc as [o|]; cbn [is_some].
      * split; [reflexivity|]. split; [reflexivity|].
        eexists. split; [reflexivity|].
        destruct opt_width, opt_height, opt_quality,
          opt_forceTransparentWhite, opt_filename; request_fields.
      * rewrite app_nil_r. repeat split.
Qed.

End RequestFacts.

End ExportFacts.

(** * The further properties on the small scenes *)

(** A synchronous flush of the demo scene is bracketed by its events. *)
Lemma render_events_bracket_witness :
  let s := Demo.stage (Some 7%nat) false 500 [tt] (Demo.mkScene 3 true) in
  isRendering s = false /\
  exists body tail,
    snd (render s) = EvDispatch RENDER_START :: body ++ tail /\
    Forall (fun e => is_dispatch e = false) body /\
    backend_ops tail = [].
Proof.
  cbv zeta. split; [reflexivity|].
  pose proof (render_events_bracket
                (Demo.stage (Some 7%nat) false 500 [tt] (Demo.mkScene 3 true))
                eq_refl) as H.
  destruct (render _) as [[r s'] l].
  destruct H as (body & tail & E & Hb & Ht & _).
  exists body, tail. cbn [snd]. auto.
Defined.

(** The demo stage with the image loader busy. *)
Lemma stage_rendered_once_witness :
  let s := mkStage 0 (Some 7%nat) false false 0 500 Sync [tt]
             false false false None false true true (Demo.mkScene 3 true) in
  isRendering s = false /\
  count_where (is_event STAGE_RENDERED) (snd (render s)) = 0%nat /\
  count_where is_listen (snd (render s)) = 1%nat /\
  imageLoadingListener_ (snd (fst (render s))) = true /\
  snd (imageLoadingComplete (snd (fst (render s))))
  = [EvDispatch STAGE_RENDERED].
Proof.
  cbv zeta. split; [reflexivity|].
  pose proof (stage_rendered_once
                (mkStage 0 (Some 7%nat) false false 0 500 Sync [tt]
                   false false false None false true true
                   (Demo.mkScene 3 true))
                eq_refl) as H.
  destruct (render _) as [[[[]|e] s'] l] eqn:E.
  - assert (Hload : imageLoader s' && isImageLoading s' = true).
    { change s' with (snd (fst (Returned tt, s', l))).
      rewrite <- E. reflexivity. }
    cbv zeta in H. rewrite Hload in H.
    cbn [imageLoadingListener_ negb andb orb] in H.
    destruct H as (Hc & Hk & Hl & Hrun). cbn [fst snd].
    rewrite (Hrun eq_refl). auto.
  - vm_compute in E. discriminate E.
Defined.

(** The first flush moves the root element into container 7. *)
Lemma render_attaches_root_witness :
  let s := Demo.stage (Some 7%nat) false 500 [tt] (Demo.mkScene 3 true) in
  isRendering s = false /\
  container_ s <> None /\
  domParent (snd (fst (render s))) = Some 7%nat /\
  filter is_attach (snd (render s)) = [EvAppendChild (Some 7%nat)].
Proof.
  cbv zeta. split; [reflexivity|]. split; [discriminate|].
  pose proof (render_attaches_root
                (Demo.stage (Some 7%nat) false 500 [tt] (Demo.mkScene 3 true))
                eq_refl ltac:(discriminate)) as H.
  destruct (render _) as [[r s'] l].
  destruct H as (H1 & _ & _ & H2). cbn [fst snd]. split; assumption.
Defined.


(** In async mode the last [resume] schedules the tick and draws nothing. *)
Lemma resume_async_defers_witness :
  let s := mkStage 1 (Some 7%nat) true false 0 500 Sync [tt]
             false false false None false false false (Demo.mkScene 3 true) in
  asyncMode_ s = true /\
  backend_ops (snd (resume None s)) = [] /\
  count_where is_timeout (snd (resume None s)) = 1%nat /\
  nodes (snd (fst (resume None s))) = Demo.mkScene 3 true.
Proof.
  cbv zeta. split; [reflexivity|].
  pose proof (resume_async_defers None
                (mkStage 1 (Some 7%nat) true false 0 500 Sync [tt]
                   false false false None false false false
                   (Demo.mkScene 3 true))
                eq_refl) as H.
  destruct (resume None _) as [[r s'] l] eqn:E.
  destruct H as (_ & Hn & _ & _ & _ & Hb & Ht & _).
  cbn [fst snd]. split; [exact Hb|]. split; [|exact Hn].
  rewrite Ht. cbn [container_ is_some isRendering_ negb andb].
  assert (Hs : suspended_ s' = 0).
  { change s' with (snd (fst (r, s', l))). rewrite <- E. reflexivity. }
  rewrite Hs. reflexivity.
Defined.

(** A tick with a budget of two leaves the demo scene dirty and asks for
    one more tick. *)
Lemma tick_continues_or_finishes_witness :
  let s := Demo.stage (Some 7%nat) true 2 [tt] (Demo.mkScene 3 true) in
  container_ s <> None /\
  isDirty (snd (fst (renderAsync_ s))) = true /\
  count_where is_timeout (snd (renderAsync_ s)) = 1%nat /\
  isRendering_ (snd (fst (renderAsync_ s))) = true.
Proof.
  cbv zeta. split; [discriminate|].
  pose proof (tick_continues_or_finishes
                (Demo.stage (Some 7%nat) true 2 [tt] (Demo.mkScene 3 true))
                ltac:(discriminate)) as H.
  destruct (renderAsync_ _) as [[r s'] l] eqn:E.
  assert (Hd : isDirty s' = true).
  { change s' with (snd (fst (r, s', l))). rewrite <- E. reflexivity. }
  rewrite Hd in H. destruct H as (_ & Ht & _ & Hr).
  cbn [fst snd]. auto.
Defined.

(** A stale tick on a clean, attached stage. *)
Lemma tick_on_clean_stage_witness :
  let s := Demo.ticking 0 500 (Demo.mkScene 0 false) in
  container_ s <> None /\
  clipsToRender_ s = [] /\
  isDirty s = false /\
  credits s = false /\
  needsAttach s = false /\
  backend_ops (snd (renderAsync_ s)) = [] /\
  isRendering_ (snd (fst (renderAsync_ s))) = false.
Proof.
  cbv zeta. split; [discriminate|]. repeat (split; [reflexivity|]).
  pose proof (tick_on_clean_stage
                (Demo.ticking 0 500 (Demo.mkScene 0 false))
                ltac:(discriminate) eq_refl eq_refl eq_refl eq_refl) as H.
  destruct (renderAsync_ _) as [[r s'] l].
  destruct H as (_ & Hb & _ & _ & _ & Hr & _). cbn [fst snd]. auto.
Defined.

(** The monitor was started by an earlier [render]; the tick that ends an
    asynchronous flush starts it again. *)
Lemma tick_starts_monitor_unguarded_witness :
  let s := mkStage 0 (Some 7%nat) true true 0 500 Async ([] : list Demo.Clip)
             true false false (Some 7%nat) true false false
             (Demo.mkScene 0 false) in
  container_ s <> None /\
  renderedResizeMonitor_ s = true /\
  count_where is_resize_monitor (snd (renderAsync_ s)) = 1%nat.
Proof.
  cbv zeta. split; [discriminate|]. split; [reflexivity|].
  pose proof (tick_starts_monitor_unguarded
                (mkStage 0 (Some 7%nat) true true 0 500 Async
                   ([] : list Demo.Clip)
                   true false false (Some 7%nat) true false false
                   (Demo.mkScene 0 false))
                ltac:(discriminate)) as H.
  destruct (renderAsync_ _) as [[r s'] l] eqn:E.
  assert (Hd : isDirty s' = false).
  { change s' with (snd (fst (r, s', l))). rewrite <- E. reflexivity. }
  rewrite Hd in H. destruct H as (_ & H). cbn [fst snd]. exact H.
Defined.

(** Three nested suspensions around nothing: one [render]. *)
Lemma nested_suspend_resume_witness :
  let s := Demo.stage (Some 7%nat) false 500 [] (Demo.mkScene 3 false) in
  0 <= suspended_ s /\
  snd (run_calls (repeat CallSuspend 3 ++ repeat (CallResume None) 3) s)
  = EvInvoke Render :: snd (render s).
Proof.
  cbv zeta. split; [cbn; lia|].
  rewrite (nested_suspend_resume 2
             (Demo.stage (Some 7%nat) false 500 [] (Demo.mkScene 3 false))
             ltac:(cbn; lia)).
  cbn [Demo.stage suspended_ container_ asyncMode_ is_some andb Z.eqb].
  destruct (render _) as [[r s'] l]. reflexivity.
Defined.

(** Two clips queued behind a third on a suspended stage; and a clip
    added to a stage that is not suspended, rendered at once. *)
Lemma addClipForRender_queues_or_renders_witness :
  let s := Gallery.stage 1 (Some 7%nat) false [9%nat]
             (Gallery.mkScene 0 [4%nat]) in
  let u := Gallery.stage 0 (Some 7%nat) false [9%nat]
             (Gallery.mkScene 0 [4%nat]) in
  (isSuspended s = true /\
   addClipsForRender (Nodes := Gallery.nodes) [4%nat; 5%nat] s
   = (Returned tt, set_clipsToRender_ [9%nat; 4%nat; 5%nat] s, [])) /\
  (isSuspended u = false /\
   addClipForRender (Nodes := Gallery.nodes) 4%nat u
   = (Returned tt,
      set_nodes (Gallery.mkScene 0 []) (set_currentDomChangesCount 1 u),
      [EvClipRender 4%nat; EvQuota 1 1])).
Proof.
  cbv zeta. split; (split; [reflexivity|]).
  - exact (proj1 (addClipForRender_queues_or_renders (Nodes := Gallery.nodes)
                    (Gallery.stage 1 (Some 7%nat) false [9%nat]
                       (Gallery.mkScene 0 [4%nat])))
             eq_refl [4%nat; 5%nat]).
  - destruct (proj2 (addClipForRender_queues_or_renders (Nodes := Gallery.nodes)
                       (Gallery.stage 0 (Some 7%nat) false [9%nat]
                          (Gallery.mkScene 0 [4%nat])))
                eq_refl 4%nat) as (sc & Hsc & Hadd & _).
    rewrite Hadd. inversion Hsc. reflexivity.
Defined.

(** A clip queued twice: the first occurrence goes. *)
Lemma removeClipFromRender_first_occurrence_witness :
  let s := Gallery.stage 1 (Some 7%nat) false [5%nat; 4%nat; 6%nat; 4%nat]
             (Gallery.mkScene 0 [4%nat]) in
  clipsToRender_ s = [5%nat] ++ 4%nat :: [6%nat; 4%nat] /\
  ~ In 4%nat [5%nat] /\
  removeClipFromRender Nat.eq_dec 4%nat s
  = (Returned tt, set_clipsToRender_ [5%nat; 6%nat; 4%nat] s, []).
Proof.
  cbv zeta.
  assert (Hn : ~ In 4%nat [5%nat]) by (intros [H | []]; discriminate H).
  split; [reflexivity|]. split; [exact Hn|].
  exact (proj1 (proj2 (removeClipFromRender_first_occurrence
                         (Nodes := Gallery.nodes) Nat.eq_dec 4%nat
                         (Gallery.stage 1 (Some 7%nat) false
                            [5%nat; 4%nat; 6%nat; 4%nat]
                            (Gallery.mkScene 0 [4%nat]))))
           [5%nat] [6%nat; 4%nat] eq_refl Hn).
Defined.

(** Two clean clips queued, a clean layer: the flush only empties the
    queue. *)
Lemma clean_queue_is_dropped_witness :
  let s := Gallery.stage 0 (Some 7%nat) false [4%nat; 5%nat]
             (Gallery.mkScene 0 [6%nat]) in
  Forall (fun c => clip_isDirty (SceneNodes := Gallery.nodes) c (nodes s) = false)
         (clipsToRender_ s) /\
  layer_isDirty (SceneNodes := Gallery.nodes) (nodes s) = false /\
  credits s = false /\
  renderInternal (Nodes := Gallery.nodes) s
  = (Returned tt, set_clipsToRender_ [] s, []).
Proof.
  cbv zeta.
  assert (Hq : Forall (fun c => clip_isDirty (SceneNodes := Gallery.nodes) c
                                  (Gallery.mkScene 0 [6%nat]) = false)
                      [4%nat; 5%nat])
    by (repeat constructor).
  split; [exact Hq|]. split; [reflexivity|]. split; [reflexivity|].
  exact (clean_queue_is_dropped (Nodes := Gallery.nodes)
           (Gallery.stage 0 (Some 7%nat) false [4%nat; 5%nat]
              (Gallery.mkScene 0 [6%nat]))
           Hq eq_refl eq_refl).
Defined.

(** Clearing a title that was never set does nothing. *)
Lemma title_desc_set_then_get_witness :
  Labels.Null <> Labels.Undefined /\
  Labels.title Labels.Null Labels.fresh = (None, Labels.fresh, []) /\
  Labels.title Labels.Undefined Labels.fresh
  = (Some Labels.Undefined, Labels.fresh, []).
Proof.
  assert (Hn : Labels.Null <> Labels.Undefined) by discriminate.
  split; [exact Hn|].
  pose proof (proj1 (LabelFacts.title_desc_set_then_get
                       Labels.Null Labels.fresh Hn)) as H.
  change (Labels.title Labels.Null Labels.fresh)
    with (@None Labels.Text, Labels.fresh, @nil Labels.Call) in H.
  destruct H as (Hget & _). split; [reflexivity | exact Hget].
Defined.

(** * Export requests on a small stage *)

Section ExportExamples.

Import String.
Local Open Scope string_scope.
Local Open Scope list_scope.

(** Sharing a PNG of a stage drawn by the SVG backend, 320 wide, under the
    name [chart], with the answer as base64. *)
Lemma share_request_fields_witness :
  let host := Exporting.mkHost Exporting.SVG "<svg/>" in
  let c := Exporting.mkCanvas (Some 1%nat) 640 480
             (Exporting.Spec "100%") (Exporting.Px 480) (Some 2%nat) false in
  Exporting.type host = Exporting.SVG /\
  exists data,
    Exporting.shareAsPng host c (Some true) (Some 320) None None
                         (Some "chart")
    = snd (Exporting.toSvg host c) ++ [Exporting.XhrSend "/png" "url" data] /\
    Exporting.image_request data (fst (Exporting.toSvg host c)) "base64" true
      (Some 320) None None None (Some "chart").
Proof.
  cbv zeta. split; [reflexivity|].
  exact (proj1 (ExportFacts.share_request_fields
                  (Exporting.mkHost Exporting.SVG "<svg/>")
                  (Exporting.mkCanvas (Some 1%nat) 640 480
                     (Exporting.Spec "100%") (Exporting.Px 480)
                     (Some 2%nat) false)
                  (Some true) (Some 320) None None None (Some "chart")
                  eq_refl)).
Defined.

(** The same stage as a JPG in base64, on a white background. *)
Lemma base64_request_fields_witness :
  let host := Exporting.mkHost Exporting.SVG "<svg/>" in
  let c := Exporting.mkCanvas (Some 1%nat) 640 480
             (Exporting.Spec "100%") (Exporting.Px 480) (Some 2%nat) false in
  Exporting.type host = Exporting.SVG /\
  exists data,
    Exporting.getJpgBase64String host c None None (Some 1) (Some true)
    = snd (Exporting.toSvg host c)
      ++ [Exporting.XhrSend "/jpg" "result" data] /\
    Exporting.image_request data (fst (Exporting.toSvg host c)) "base64" false
      None None (Some 1) (Some true) None.
Proof.
  cbv zeta. split; [reflexivity|].
  exact (proj2 (ExportFacts.base64_request_fields
                  (Exporting.mkHost Exporting.SVG "<svg/>")
                  (Exporting.mkCanvas (Some 1%nat) 640 480
                     (Exporting.Spec "100%") (Exporting.Px 480)
                     (Some 2%nat) false)
                  None None (Some 1) (Some true) eq_refl)).
Defined.

(** Saving a PNG from a stage that never had a container: the SVG is
    taken, then the call fails. *)
Lemma save_request_or_type_error_witness :
  let host := Exporting.mkHost Exporting.SVG "<svg/>" in
  let c := Exporting.mkCanvas (Some 1%nat) 640 480
             (Exporting.Px 640) (Exporting.Px 480) None false in
  Exporting.type host = Exporting.SVG /\
  match Exporting.saveAsPng host c (Some 320) None None None with
  | (r, c', l) =>
      r = Exporting.TypeError /\ c' = c /\ l = snd (Exporting.toSvg host c)
  end.
Proof.
  cbv zeta. split; [reflexivity|].
  exact (proj1 (ExportFacts.save_request_or_type_error
                  (Exporting.mkHost Exporting.SVG "<svg/>")
                  (Exporting.mkCanvas (Some 1%nat) 640 480
                     (Exporting.Px 640) (Exporting.Px 480) None false)
                  (Some 320) None None None None eq_refl)).
Defined.

End ExportExamples.
